(** * clean_data.py: normalisation, cleaning and merge of the population and GDP tables

    A shallow embedding of [src/clean_data.py].  Python code is embedded as
    Rocq functions with the names it has in the source; an exception that the
    Python code can raise is a [Raise] result.  The Spark operations the script
    calls ([withColumnRenamed], [withColumn], [selectExpr], [filter], [join],
    [dropDuplicates], ...) are embedded as functions on an in-memory data
    frame.

    Conventions of the embedding:
    - text is ASCII ([string]); [str.strip], [str.lower] and [str.isdigit]
      are given on that range;
    - a double is an IEEE binary64 number ([spec_float] at precision 53);
      the built-in [sum] is the one of the interpreter, plain or
      compensated ([Float64.summation]);
    - Spark resolves a column name without regard to case (its default) and
      raises an [AnalysisException] as soon as an operation names a column
      that is missing or ambiguous;
    - [selectExpr] reads each of its arguments as one SQL expression (the
      parser's rule is a single named expression, then the end of the text)
      and raises a [ParseException] on a text that holds more;
    - a column name that the script writes between backquotes is read by
      the lexer as a quoted identifier ([Spark.quoted_identifier]); a header
      name is taken to be a name, not a piece of SQL that goes on after an
      early closing backquote;
    - the row order of a data frame is the order of its list of rows. *)

From Stdlib Require Import ZArith List String Ascii Bool Arith Lia SpecFloat.
Import ListNotations.

Local Open Scope string_scope.
Local Open Scope list_scope.

(* ================================================================= *)
(** ** Python strings *)

Module PyStr.

(** [str.isspace] on one ASCII character: TAB..CR, FS..US and the space. *)
Definition isspace (c : ascii) : bool :=
  let n := nat_of_ascii c in
  (((9 <=? n) && (n <=? 13)) || ((28 <=? n) && (n <=? 32)))%nat.

Definition isdigit_char (c : ascii) : bool :=
  let n := nat_of_ascii c in ((48 <=? n) && (n <=? 57))%nat.

Definition lower_char (c : ascii) : ascii :=
  let n := nat_of_ascii c in
  if ((65 <=? n) && (n <=? 90))%nat then ascii_of_nat (n + 32) else c.

Fixpoint lstrip (s : string) : string :=
  match s with
  | EmptyString => EmptyString
  | String c r => if isspace c then lstrip r else s
  end.

Fixpoint rstrip (s : string) : string :=
  match s with
  | EmptyString => EmptyString
  | String c r =>
      match rstrip r with
      | EmptyString => if isspace c then EmptyString else String c EmptyString
      | r' => String c r'
      end
  end.

(** [s.strip()] *)
Definition strip (s : string) : string := rstrip (lstrip s).

(** [s.lower()] *)
Fixpoint lower (s : string) : string :=
  match s with
  | EmptyString => EmptyString
  | String c r => String (lower_char c) (lower r)
  end.

Fixpoint all_digits (s : string) : bool :=
  match s with
  | EmptyString => true
  | String c r => isdigit_char c && all_digits r
  end.

(** [s.isdigit()]: at least one character, and every character a digit. *)
Definition isdigit (s : string) : bool :=
  match s with
  | EmptyString => false
  | _ => all_digits s
  end.

(** [s.startswith(sub)] *)
Fixpoint startswith (s sub : string) : bool :=
  match sub with
  | EmptyString => true
  | String a sub' =>
      match s with
      | EmptyString => false
      | String b s' => Ascii.eqb a b && startswith s' sub'
      end
  end.

(** [sub in s] *)
Fixpoint contains (sub s : string) : bool :=
  startswith s sub ||
  match s with
  | EmptyString => false
  | String _ r => contains sub r
  end.

(** [os.path.basename(p)]: what follows the last slash. *)
Fixpoint basename (p : string) : string :=
  match p with
  | EmptyString => EmptyString
  | String c r =>
      if contains "/" r then basename r
      else if Ascii.eqb c "/" then r else p
  end.

(** [x in xs] for a list of strings. *)
Definition mem (x : string) (xs : list string) : bool :=
  existsb (String.eqb x) xs.

End PyStr.

(* ================================================================= *)
(** ** Exceptions *)

Inductive exn : Type :=
| AnalysisException (what : string)
| ParseException (what : string)
| ValueError (what : string)
| IndexError
| TypeError.

Inductive result (A : Type) : Type :=
| Ok (a : A)
| Raise (e : exn).

Arguments Ok {A} a.
Arguments Raise {A} e.

Definition bind {A B : Type} (r : result A) (k : A -> result B) : result B :=
  match r with
  | Ok a => k a
  | Raise e => Raise e
  end.

Notation "x <- e ;; k" := (bind e (fun x => k))
  (at level 61, e at next level, right associativity).

Fixpoint mapM {A B : Type} (f : A -> result B) (l : list A) : result (list B) :=
  match l with
  | [] => Ok []
  | a :: r => b <- f a ;; bs <- mapM f r ;; Ok (b :: bs)
  end.

(* ================================================================= *)
(** ** Doubles *)

Module Float64.

Definition prec : Z := 53.
Definition emax : Z := 1024.

Definition float : Type := spec_float.

Definition zero : float := S754_zero false.
Definition add : float -> float -> float := SFadd prec emax.
Definition div : float -> float -> float := SFdiv prec emax.
Definition abs : float -> float := SFabs.
(** [x < y] *)
Definition ltb : float -> float -> bool := SFltb.
(** [float(n)] for an integer [n] *)
Definition of_Z (z : Z) : float := binary_normalize prec emax z 0 false.

(** [bool(x)]: a float is true unless it equals zero. *)
Definition truthy (x : float) : bool := negb (SFeqb x zero).

Definition sub : float -> float -> float := SFsub prec emax.
(** [x <= y] *)
Definition leb : float -> float -> bool := SFleb.

(** [isfinite(x)] *)
Definition is_finite (x : float) : bool :=
  match x with
  | S754_zero _ | S754_finite _ _ _ => true
  | S754_infinity _ | S754_nan => false
  end.

(** The built-in [sum] on floats.  Up to CPython 3.11 it adds them from the
    left; from CPython 3.12 on it keeps the rounding error of each addition
    in a second float (Neumaier's summation) and adds it at the end. *)
Inductive summation : Type := FromLeft | Compensated.

(** The loop of the compensated sum: [f] is the running sum, [c] the
    compensation. *)
Fixpoint compensated (f c : float) (xs : list float) : float :=
  match xs with
  | [] => if truthy c && is_finite c then add f c else f
  | x :: r =>
      let t := add f x in
      let c' :=
        if leb (abs x) (abs f) then add c (add (sub f t) x)
        else add c (add (sub x t) f) in
      compensated t c' r
  end.

(** [sum(xs)]: the start value 0 is added to the first float, the others
    are added as the interpreter does. *)
Definition sum (how : summation) (xs : list float) : float :=
  match how with
  | FromLeft => fold_left add xs zero
  | Compensated =>
      match xs with
      | [] => zero
      | x :: r => compensated (add zero x) zero r
      end
  end.

(** The number that a finite double stands for, counted in units of
    2^-1074 (the smallest positive double): an integer. *)
Definition scaled (x : float) : Z :=
  match x with
  | S754_finite s m e => ((if s then -1 else 1) * Z.pos m * 2 ^ (e + 1074))%Z
  | _ => 0%Z
  end.

Definition eqb (x y : float) : bool :=
  match x, y with
  | S754_zero a, S754_zero b => Bool.eqb a b
  | S754_infinity a, S754_infinity b => Bool.eqb a b
  | S754_nan, S754_nan => true
  | S754_finite s m e, S754_finite s' m' e' =>
      Bool.eqb s s' && Pos.eqb m m' && Z.eqb e e'
  | _, _ => false
  end.

End Float64.

(* ================================================================= *)
(** ** Data frames *)

(** A cell: SQL NULL, a string, an integer or a double. *)
Inductive value : Type :=
| VNull
| VStr (s : string)
| VInt (z : Z)
| VDbl (d : Float64.float).

Definition row : Type := list value.

Record DataFrame : Type := mkDataFrame {
  columns : list string;
  rows : list row
}.

Module Spark.

(** Structural equality of cells; two NULLs are equal here (as for
    [dropDuplicates]), see [sql_eqb] for the equality of a join condition. *)
Definition value_eqb (a b : value) : bool :=
  match a, b with
  | VNull, VNull => true
  | VStr s, VStr t => String.eqb s t
  | VInt x, VInt y => Z.eqb x y
  | VDbl x, VDbl y => Float64.eqb x y
  | _, _ => false
  end.

Definition is_null (v : value) : bool :=
  match v with VNull => true | _ => false end.

(** [a = b] in a join condition: never true when a side is NULL. *)
Definition sql_eqb (a b : value) : bool :=
  negb (is_null a) && negb (is_null b) && value_eqb a b.

(** [coalesce(a, b)] *)
Definition coalesce (a b : value) : value :=
  match a with VNull => b | _ => a end.

(** The cell of a row at a column index. *)
Definition cell (r : row) (i : nat) : value := nth i r VNull.

(** The analyzer's resolver: names are compared without regard to case. *)
Definition resolver (a b : string) : bool :=
  String.eqb (PyStr.lower a) (PyStr.lower b).

Fixpoint positions_from (k : nat) (name : string) (cols : list string) : list nat :=
  match cols with
  | [] => []
  | c :: r =>
      if resolver c name then k :: positions_from (S k) name r
      else positions_from (S k) name r
  end.

(** Resolution of a column name: exactly one column must bear it. *)
Definition resolve (name : string) (cols : list string) : result nat :=
  match positions_from 0 name cols with
  | [i] => Ok i
  | [] => Raise (AnalysisException ("cannot resolve " ++ name))
  | _ => Raise (AnalysisException ("ambiguous reference " ++ name))
  end.

(** Several columns bear the name. *)
Definition ambiguous (name : string) (cols : list string) : bool :=
  (1 <? List.length (positions_from 0 name cols))%nat.

(** The references of a select are resolved before the plan is checked: a
    name that several columns bear is refused then, the first such name in
    the order of the expressions; a name that no column bears is reported
    by the check that follows (see [resolve]). *)
Definition check_ambiguous (names cols : list string) : result unit :=
  match find (fun n => ambiguous n cols) names with
  | Some n => Raise (AnalysisException ("ambiguous reference " ++ n))
  | None => Ok tt
  end.

(** [xs[i] = x], nothing done out of range. *)
Fixpoint set_nth {A : Type} (i : nat) (x : A) (xs : list A) : list A :=
  match xs, i with
  | [], _ => []
  | _ :: r, O => x :: r
  | a :: r, S j => a :: set_nth j x r
  end.

Fixpoint map_nth {A : Type} (i : nat) (f : A -> A) (xs : list A) : list A :=
  match xs, i with
  | [], _ => []
  | a :: r, O => f a :: r
  | a :: r, S j => a :: map_nth j f r
  end.

(** [df.withColumnRenamed(existing, new)]: every column the resolver matches
    is renamed; nothing happens when there is none. *)
Definition withColumnRenamed (existing new : string) (df : DataFrame) : DataFrame :=
  {| columns := map (fun c => if resolver c existing then new else c) (columns df);
     rows := rows df |}.

(** [df.withColumn(name, f(col(name)))]: the column is resolved, recomputed
    cell by cell in place, and bears [name] afterwards. *)
Definition withColumn_map (name : string) (f : value -> value) (df : DataFrame)
  : result DataFrame :=
  i <- resolve name (columns df) ;;
  Ok {| columns := set_nth i name (columns df);
        rows := map (map_nth i f) (rows df) |}.

(** [df.withColumn(name, lit(v))]: a constant column, replacing the columns
    the resolver matches or appended when there is none. *)
Definition withColumn_lit (name : string) (v : value) (df : DataFrame) : DataFrame :=
  if existsb (fun c => resolver c name) (columns df) then
    {| columns := map (fun c => if resolver c name then name else c) (columns df);
       rows := map (fun r => map (fun cv => if resolver (fst cv) name then v else snd cv)
                               (combine (columns df) r)) (rows df) |}
  else
    {| columns := columns df ++ [name];
       rows := map (fun r => r ++ [v]) (rows df) |}.

(** [df.select(n1, n2, ...)] *)
Definition select (names : list string) (df : DataFrame) : result DataFrame :=
  idx <- mapM (fun n => resolve n (columns df)) names ;;
  Ok {| columns := names;
        rows := map (fun r => map (cell r) idx) (rows df) |}.

(** [df.filter(col(name).isNotNull())] *)
Definition filter_not_null (name : string) (df : DataFrame) : result DataFrame :=
  i <- resolve name (columns df) ;;
  Ok {| columns := columns df;
        rows := filter (fun r => negb (is_null (cell r i))) (rows df) |}.

(** [df.limit(n).collect()] *)
Definition limit_collect (n : nat) (df : DataFrame) : list row :=
  firstn n (rows df).

(** [df.count()] *)
Definition count (df : DataFrame) : nat := List.length (rows df).

(** A string function applied to a column: NULL stays NULL.  The columns it
    is applied to hold CSV text; a numeric cell is left as it is. *)
Definition on_text (f : string -> string) (v : value) : value :=
  match v with
  | VStr s => VStr (f s)
  | _ => v
  end.

Fixpoint ltrim (s : string) : string :=
  match s with
  | EmptyString => EmptyString
  | String c r => if Ascii.eqb c " " then ltrim r else s
  end.

Fixpoint rtrim (s : string) : string :=
  match s with
  | EmptyString => EmptyString
  | String c r =>
      match rtrim r with
      | EmptyString => if Ascii.eqb c " " then EmptyString else String c EmptyString
      | r' => String c r'
      end
  end.

(** [trim(col)]: the space characters at both ends are removed. *)
Definition trim (s : string) : string := rtrim (ltrim s).

Definition starts_with_space (s : string) : bool :=
  match s with
  | String c _ => Ascii.eqb c " "
  | EmptyString => false
  end.

(** [regexp_replace(col, r"\\s+", "")].  The pattern is a raw Python string
    and reaches the regular-expression engine as the four characters
    backslash, backslash, [s], [+]: an escaped backslash followed by one or
    more letters [s].  The matches are found from the left, each as long as
    it can be, and removed.  [in_match] tells that the characters before the
    current one were the start of a match. *)
Definition is_backslash (c : ascii) : bool := Ascii.eqb c "\".
Definition is_s (c : ascii) : bool := Ascii.eqb c "s".

Definition starts_with_s (s : string) : bool :=
  match s with
  | String c _ => is_s c
  | EmptyString => false
  end.

Fixpoint remove_matches (in_match : bool) (s : string) : string :=
  match s with
  | EmptyString => EmptyString
  | String c r =>
      if in_match && is_s c then remove_matches true r
      else if is_backslash c && starts_with_s r then remove_matches true r
      else String c (remove_matches false r)
  end.

Definition regexp_replace_backslash_s (s : string) : string :=
  remove_matches false s.

(** The pattern has a match in the string: a backslash stands before a
    letter [s]. *)
Fixpoint has_match (s : string) : bool :=
  match s with
  | EmptyString => false
  | String c r => (is_backslash c && starts_with_s r) || has_match r
  end.

(** *** Outer join *)

(** The rows of [L.join(R, how="outer")] for a join condition [on]: every
    left row with each of its matches, or alone when it has none, then the
    right rows that no left row matches. *)
Definition outer_join (on : row -> row -> bool) (L R : list row)
  : list (option row * option row) :=
  flat_map (fun l =>
              match filter (on l) R with
              | [] => [(Some l, None)]
              | ms => map (fun r => (Some l, Some r)) ms
              end) L
  ++ map (fun r => (None, Some r))
         (filter (fun r => negb (existsb (fun l => on l r) L)) R).

Definition side_cell (o : option row) (i : nat) : value :=
  match o with
  | Some r => cell r i
  | None => VNull
  end.

(** A column of the join's output: a join key (the two sides' key cells
    coalesced), a column of the left frame or a column of the right frame. *)
Inductive jref : Type :=
| JKey (l r : nat)
| JLeft (i : nat)
| JRight (i : nat).

Definition eval_jref (j : jref) (p : option row * option row) : value :=
  match j with
  | JKey l r => coalesce (side_cell (fst p) l) (side_cell (snd p) r)
  | JLeft i => side_cell (fst p) i
  | JRight i => side_cell (snd p) i
  end.

Fixpoint indexed_from {A : Type} (k : nat) (l : list A) : list (A * nat) :=
  match l with
  | [] => []
  | a :: r => (a, k) :: indexed_from (S k) r
  end.

Definition non_key_columns (mk : nat -> jref) (cols : list string) (keys : list nat)
  : list (string * jref) :=
  map (fun ci => (fst ci, mk (snd ci)))
      (filter (fun ci => negb (existsb (Nat.eqb (snd ci)) keys)) (indexed_from 0 cols)).

(** The output columns of a join on the names [on]: the keys, then the other
    columns of the left frame, then the other columns of the right frame. *)
Definition joined_columns (on : list string) (lcols rcols : list string)
  (lkeys rkeys : list nat) : list (string * jref) :=
  map (fun k => (fst k, JKey (fst (snd k)) (snd (snd k))))
      (combine on (combine lkeys rkeys))
  ++ non_key_columns JLeft lcols lkeys
  ++ non_key_columns JRight rcols rkeys.

(** [col(name)] against the join's output. *)
Definition resolve_joined (name : string) (jcols : list (string * jref)) : result jref :=
  match filter (fun c => resolver (fst c) name) jcols with
  | [c] => Ok (snd c)
  | [] => Raise (AnalysisException ("cannot resolve " ++ name))
  | _ => Raise (AnalysisException ("ambiguous reference " ++ name))
  end.

Fixpoint keys_eqb (a b : list value) : bool :=
  match a, b with
  | [], [] => true
  | x :: a', y :: b' => value_eqb x y && keys_eqb a' b'
  | _, _ => false
  end.

(** The first row of every key is kept. *)
Fixpoint drop_dups_by (key : row -> list value) (l : list row) : list row :=
  match l with
  | [] => []
  | r :: t =>
      r :: filter (fun r' => negb (keys_eqb (key r) (key r'))) (drop_dups_by key t)
  end.

(** [df.dropDuplicates(names)] *)
Definition dropDuplicates (names : list string) (df : DataFrame) : result DataFrame :=
  idx <- mapM (fun n => resolve n (columns df)) names ;;
  Ok {| columns := columns df;
        rows := drop_dups_by (fun r => map (cell r) idx) (rows df) |}.

(** *** selectExpr *)

(** The expressions that the script writes for [selectExpr]: a column in
    backquotes, and the generator
    [stack(n, 'y1', `y1`, ..., 'yn', `yn`) as (year, value)]. *)
Inductive sql_expr : Type :=
| Column (name : string)
| Stack (names : list string).

(** A SQL text, given by the pieces that its commas separate (the commas
    that stand outside quotes and brackets); an empty piece is [None]. *)
Definition sql_text : Type := list (option sql_expr).

Definition backquoted (c : string) : sql_text := [Some (Column c)].

Definition stack_text (names : list string) : sql_text := [Some (Stack names)].

(** [", ".join(texts)] *)
Definition join_comma (texts : list sql_text) : sql_text :=
  match texts with
  | [] => [None]
  | _ => List.concat texts
  end.

(** [a + ", " + b] *)
Definition plus_comma (a b : sql_text) : sql_text := a ++ b.

(** The parser's [parseExpression]: the text must be one expression. *)
Definition parse_expression (t : sql_text) : result sql_expr :=
  match t with
  | [Some e] => Ok e
  | _ => Raise (ParseException "mismatched input, expecting <EOF>")
  end.

(** An expression with its columns resolved. *)
Inductive resolved_expr : Type :=
| RColumn (i : nat)
| RStack (ys : list (string * nat)).

Definition resolve_expr (cols : list string) (e : sql_expr) : result resolved_expr :=
  match e with
  | Column c => i <- resolve c cols ;; Ok (RColumn i)
  | Stack names =>
      ys <- mapM (fun y => i <- resolve y cols ;; Ok (y, i)) names ;;
      Ok (RStack ys)
  end.

Definition expr_columns (e : sql_expr) : list string :=
  match e with
  | Column c => [c]
  | Stack _ => ["year"; "value"]
  end.

Definition is_generator (e : sql_expr) : bool :=
  match e with
  | Stack _ => true
  | Column _ => false
  end.

(** The output rows that one row gives: a column adds its cell to each of
    them, the generator makes one of each for every (name, column) pair. *)
Definition expand_step (r : row) (acc : list row) (e : resolved_expr) : list row :=
  match e with
  | RColumn i => map (fun o => o ++ [cell r i]) acc
  | RStack ys => flat_map (fun o => map (fun yi => o ++ [VStr (fst yi); cell r (snd yi)]) ys) acc
  end.

Definition expand (es : list resolved_expr) (r : row) : list row :=
  fold_left (expand_step r) es [[]].

(** [df.select(e1, e2, ...)] for expressions; one generator at most. *)
Definition select_exprs (es : list sql_expr) (df : DataFrame) : result DataFrame :=
  rs <- mapM (resolve_expr (columns df)) es ;;
  if (1 <? List.length (filter is_generator es))%nat
  then Raise (AnalysisException "only one generator allowed per select clause")
  else Ok {| columns := flat_map expr_columns es;
             rows := flat_map (expand rs) (rows df) |}.

(** [df.selectExpr(t1, t2, ...)] *)
Definition selectExpr (texts : list sql_text) (df : DataFrame) : result DataFrame :=
  es <- mapM parse_expression texts ;;
  select_exprs es df.

(** *** A name written between backquotes *)

Definition is_backquote (c : ascii) : bool := Ascii.eqb c "`".

Fixpoint has_backquote (s : string) : bool :=
  match s with
  | EmptyString => false
  | String c r => is_backquote c || has_backquote r
  end.

(** The lexer on the text [`name`], where [name] is put between the
    backquotes as it is.  A quoted identifier goes from a backquote to the
    next backquote that is not doubled, and a doubled backquote stands for
    one backquote of the identifier.  The result is the identifier when it
    ends with the text, and [None] when it ends before: a backquote of
    [name] closes it, or the last one pairs with the closing backquote,
    which leaves the text with an unmatched backquote. *)
Fixpoint quoted_identifier (name : string) : option string :=
  match name with
  | EmptyString => Some EmptyString
  | String c r =>
      if is_backquote c then
        match r with
        | String d r' =>
            if is_backquote d then option_map (String c) (quoted_identifier r')
            else None
        | EmptyString => None
        end
      else option_map (String c) (quoted_identifier r)
  end.

(** The parser on [cast(`name` as double) as alias]: the cast of the column
    that the quoted identifier names.  When the identifier ends before the
    text does, what is left of [name] is read as SQL and ends in an unmatched
    backquote, which the parser refuses.  (A name that is itself written as
    SQL, closing the cast and opening a quoted identifier or a comment of its
    own, is not covered.) *)
Definition parse_cast_of_quoted (name : string) : result string :=
  match quoted_identifier name with
  | Some c => Ok c
  | None => Raise (ParseException "syntax error at or near '`'")
  end.

End Spark.

(* ================================================================= *)
(** ** The script *)

Import Spark.

(** [xs[i]] *)
Definition py_index {A : Type} (xs : list A) (i : nat) : result A :=
  match nth_error xs i with
  | Some a => Ok a
  | None => Raise IndexError
  end.

(** [xs[-1]] *)
Fixpoint py_last {A : Type} (xs : list A) : result A :=
  match xs with
  | [] => Raise IndexError
  | [a] => Ok a
  | _ :: r => py_last r
  end.

(** [d[k] = v] on a dict kept as the list of its items in insertion order. *)
Fixpoint dict_set (d : list (string * string)) (k v : string) : list (string * string) :=
  match d with
  | [] => [(k, v)]
  | (k', v') :: r => if String.eqb k' k then (k', v) :: r else (k', v') :: dict_set r k v
  end.

(** *** wide_to_long *)

(** [c.strip().isdigit() and len(c.strip()) == 4] *)
Definition year_like (c : string) : bool :=
  PyStr.isdigit (PyStr.strip c) && Nat.eqb (String.length (PyStr.strip c)) 4.

Definition year_cols (df : DataFrame) : list string :=
  filter year_like (columns df).

(** [pairs] and [stack_expr] (lines 36-39) are the text of the generator,
    [id_cols_sql] (line 40) the backquoted identifier columns joined by
    commas; line 41 gives [selectExpr] one argument, the two joined by a
    comma. *)
Definition wide_to_long (df : DataFrame) (id_vars : list string)
  : result (option DataFrame) :=
  match year_cols df with
  | [] => Ok None
  | ycs =>
      let stack_expr := stack_text ycs in
      let id_cols_sql := join_comma (map backquoted id_vars) in
      long <- selectExpr [plus_comma id_cols_sql stack_expr] df ;;
      Ok (Some long)
  end.

(** Lines 81-87: the dict of the renamings. *)
Definition rename_map_of (id_vars : list string) : result (list (string * string)) :=
  if (2 <=? List.length id_vars)%nat then
    k0 <- py_index id_vars 0 ;;
    k1 <- py_index id_vars 1 ;;
    Ok (dict_set (dict_set [] k0 "country_name") k1 "country_code")
  else
    k0 <- py_index id_vars 0 ;;
    k0' <- py_index id_vars 0 ;;
    Ok (dict_set (dict_set [] k0 "country_name") k0' "country_code").

(** *** The value column of a long table *)

Definition is_preferred (expected_measure c : string) : bool :=
  PyStr.mem (PyStr.lower c) ["value"; PyStr.lower expected_measure; "val"].

Definition is_id_name (c : string) : bool :=
  PyStr.mem (PyStr.lower c) ["country name"; "country"; "country code"; "year"].

(** Lines 56-65 of [read_and_normalize]. *)
Definition select_value_col (cols : list string) (expected_measure : string)
  : result string :=
  let fallback :=
    let non_id := filter (fun c => negb (is_id_name c)) cols in
    match non_id with
    | [] => py_last cols
    | _ => py_last non_id
    end in
  match find (is_preferred expected_measure) (rev cols) with
  | Some (String a r) => Ok (String a r)
  | _ => fallback
  end.

(** The selection as the specification words it: the three names are tried
    in their order of priority, each against the columns from the last to the
    first. *)
Definition spec_value_col (cols : list string) (expected_measure : string)
  : result string :=
  let by_name (n : string) :=
    find (fun c => String.eqb (PyStr.lower c) n) (rev cols) in
  match by_name "value" with
  | Some c => Ok c
  | None =>
      match by_name (PyStr.lower expected_measure) with
      | Some c => Ok c
      | None =>
          match by_name "val" with
          | Some c => Ok c
          | None =>
              match filter (fun c => negb (is_id_name c)) cols with
              | [] => py_last cols
              | non_id => py_last non_id
              end
          end
      end
  end.

(** *** simple_clean *)

(** [trim(regexp_replace(col("country_code"), r"\\s+", ""))] on one cell. *)
Definition clean_code (v : value) : value :=
  on_text trim (on_text regexp_replace_backslash_s v).

Definition simple_clean (df : DataFrame) (measure_name : string) : result DataFrame :=
  df <- withColumn_map "country_name" (on_text trim) df ;;
  df <- (if PyStr.mem "country_code" (columns df)
         then withColumn_map "country_code" clean_code df
         else Ok df) ;;
  df <- filter_not_null "year" df ;;
  if PyStr.mem measure_name (columns df)
  then filter_not_null measure_name df
  else Ok df.

(** What the specification asks of the country code: every whitespace
    character removed. *)
Fixpoint remove_whitespace (s : string) : string :=
  match s with
  | EmptyString => EmptyString
  | String c r =>
      if PyStr.isspace c then remove_whitespace r else String c (remove_whitespace r)
  end.

(** *** The merge at the end of main *)

(** [coalesce_col(df1, col1, df2, col2)]: [coalesce(df1[col1], df2[col2])],
    each name resolved in its own frame. *)
Definition coalesce_col (df1 : DataFrame) (col1 : string) (df2 : DataFrame) (col2 : string)
  : result (option row * option row -> value) :=
  i <- resolve col1 (columns df1) ;;
  j <- resolve col2 (columns df2) ;;
  Ok (fun p => coalesce (side_cell (fst p) i) (side_cell (snd p) j)).

Definition output_columns : list string :=
  ["country_name"; "country_code"; "year"; "population"; "gdp"].

(** Lines 163-170: the outer join on (country_code, year) and its select. *)
Definition join_select (pop_df gdp_df : DataFrame) : result DataFrame :=
  let on := ["country_code"; "year"] in
  lkeys <- mapM (fun n => resolve n (columns pop_df)) on ;;
  rkeys <- mapM (fun n => resolve n (columns gdp_df)) on ;;
  let matches (l r : row) :=
    forallb (fun k => sql_eqb (cell l (fst k)) (cell r (snd k))) (combine lkeys rkeys) in
  let jcols := joined_columns on (columns pop_df) (columns gdp_df) lkeys rkeys in
  name <- coalesce_col pop_df "country_name" gdp_df "country_name" ;;
  code <- coalesce_col pop_df "country_code" gdp_df "country_code" ;;
  year <- resolve_joined "year" jcols ;;
  population <- resolve_joined "population" jcols ;;
  gdp <- resolve_joined "gdp" jcols ;;
  Ok {| columns := output_columns;
        rows := map (fun p => [name p; code p; eval_jref year p;
                               eval_jref population p; eval_jref gdp p])
                    (outer_join matches (rows pop_df) (rows gdp_df)) |}.

(** Lines 157-160.  The loop rebinds its own variable [df]; [pop_df] and
    [gdp_df] are not assigned.  The function gives the last value of [df]. *)
Definition standardize_join_keys (pop_df gdp_df : option DataFrame) : option DataFrame :=
  fold_left
    (fun (_ : option DataFrame) (df : option DataFrame) =>
       match df with
       | Some d =>
           if negb (PyStr.mem "country_code" (columns d))
           then Some (withColumn_lit "country_code" VNull d)
           else Some d
       | None => None
       end)
    [pop_df; gdp_df] None.

(** Lines 157-184: from the two frames to the frame that is written, [None]
    when there is nothing to write. *)
Definition merge (pop_df gdp_df : option DataFrame) : result (option DataFrame) :=
  let _df := standardize_join_keys pop_df gdp_df in
  joined <-
    match pop_df, gdp_df with
    | Some p, Some g => j <- join_select p g ;; Ok (Some j)
    | Some p, None =>
        j <- select ["country_name"; "country_code"; "year"; "population"] p ;;
        Ok (Some (withColumn_lit "gdp" VNull j))
    | None, Some g =>
        j <- select ["country_name"; "country_code"; "year"; "gdp"] g ;;
        Ok (Some (withColumn_lit "population" VNull j))
    | None, None => Ok None
    end ;;
  match joined with
  | None => Ok None
  | Some j => d <- dropDuplicates ["country_code"; "year"] j ;; Ok (Some d)
  end.

(** *** Files, measures and the log *)

Inductive measure : Type := Population | Gdp.

Definition measure_name (m : measure) : string :=
  match m with
  | Population => "population"
  | Gdp => "gdp"
  end.

(** A CSV file: its path and the frame [spark.read...csv(path)] makes of it
    (every cell a string or NULL). *)
Record file : Type := mkFile {
  path : string;
  loaded : DataFrame
}.

(** What the script prints. *)
Inductive event : Type :=
| NoCsvFiles
| Loaded (m : measure) (p : string) (n : nat)
| AutoDetected (m : measure) (p : string) (n : nat)
| Skipping (p : string) (e : exn)
| WarningMissing (has_population has_gdp : bool)
| NoData
| Wrote.

Record state : Type := mkState {
  pop_df : option DataFrame;
  gdp_df : option DataFrame;
  printed : list event
}.

Definition assign (m : measure) (df : DataFrame) (s : state) : state :=
  match m with
  | Population => {| pop_df := Some df; gdp_df := gdp_df s; printed := printed s |}
  | Gdp => {| pop_df := pop_df s; gdp_df := Some df; printed := printed s |}
  end.

Definition print (e : event) (s : state) : state :=
  {| pop_df := pop_df s; gdp_df := gdp_df s; printed := printed s ++ [e] |}.

(** How line 120 and line 124 read the file name. *)
Inductive hint : Type := HPopulation | HGdp | HNone.

Definition dispatch (p : string) : hint :=
  let name := PyStr.lower (PyStr.basename p) in
  if PyStr.contains "pop" name || PyStr.contains "population" name then HPopulation
  else if PyStr.contains "gdp" name || PyStr.contains "gross" name then HGdp
  else HNone.

Definition id_vars_default : list string := ["Country Name"; "Country Code"].

Definition threshold : Float64.float := Float64.of_Z 1000000.

(** [avg and avg > 1e6] *)
Definition looks_like_population (avg : option Float64.float) : bool :=
  match avg with
  | Some a => Float64.truthy a && Float64.ltb threshold a
  | None => false
  end.

Section Pipeline.

(** Spark's casts of one cell to [int] and to [double], and Python's
    [float] of a string ([None] when it raises): the conversions between
    text and numbers come from outside the script. *)
Variable cast_int : value -> value.
Variable cast_double : value -> value.
Variable float_of_text : string -> option Float64.float.

(** The built-in [sum] of the interpreter that runs the script. *)
Variable builtin_sum : Float64.summation.

(** *** read_and_normalize *)

(** Lines 48-49 *)
Definition strip_column_names (df : DataFrame) : DataFrame :=
  fold_left (fun d c => withColumnRenamed c (PyStr.strip c) d) (columns df) df.

(** [df] is the frame read from [path]; [expected_measure] is one of
    "population", "gdp" and "value" (lines 121, 125 and 130).  In the long
    branch [selectExpr] is given four arguments, each one expression: a
    column under a new name or the cast of a column.  The four texts are
    parsed first; the fourth is written around [value_col] (line 69) and is
    the only one that can fail there.  Then the columns they name are
    resolved. *)
Definition read_and_normalize (df : DataFrame) (path expected_measure : string)
  (id_vars_default : list string) : result DataFrame :=
  let df := strip_column_names df in
  let cols := columns df in
  let lc := map PyStr.lower cols in
  if PyStr.mem "year" lc then
    value_col <- select_value_col cols expected_measure ;;
    value_id <- parse_cast_of_quoted value_col ;;
    _ <- check_ambiguous ["Country Name"; "Country Code"; "Year"; value_id] cols ;;
    n <- resolve "Country Name" cols ;;
    c <- resolve "Country Code" cols ;;
    y <- resolve "Year" cols ;;
    v <- resolve value_id cols ;;
    Ok {| columns := ["country_name"; "country_code"; "year"; expected_measure];
          rows := map (fun r => [cell r n; cell r c; cast_int (cell r y);
                                 cast_double (cell r v)]) (rows df) |}
  else
    let id_vars :=
      filter (fun c => PyStr.mem (PyStr.lower c) (map PyStr.lower id_vars_default)) cols in
    let id_vars := match id_vars with [] => firstn 2 cols | _ => id_vars end in
    long <- wide_to_long df id_vars ;;
    match long with
    | None => Raise (ValueError ("Could not interpret file " ++ path
                                 ++ " as long or wide year-format CSV."))
    | Some long =>
        rename_map <- rename_map_of id_vars ;;
        let long :=
          fold_left (fun d kv => withColumnRenamed (fst kv) (snd kv) d) rename_map long in
        long <- withColumn_map "year" cast_int long ;;
        let long := withColumnRenamed "value" expected_measure long in
        withColumn_map expected_measure cast_double long
    end.

(** *** The measure of a file with no hint in its name *)

(** [float(v)] *)
Definition py_float (v : value) : result Float64.float :=
  match v with
  | VDbl d => Ok d
  | VInt z => Ok (Float64.of_Z z)
  | VStr s =>
      match float_of_text s with
      | Some d => Ok d
      | None => Raise (ValueError "could not convert string to float")
      end
  | VNull => Raise TypeError
  end.

(** Lines 133-138: [avg], computed from the sample. *)
Definition sample_average (sample : list row) : result (option Float64.float) :=
  match sample with
  | [] => Ok None
  | _ =>
      cells <- mapM (fun r => py_index r 3) sample ;;
      let vals := filter (fun v => negb (is_null v)) cells in
      match vals with
      | [] => Ok None
      | _ =>
          xs <- mapM py_float vals ;;
          Ok (Some (Float64.div (Float64.sum builtin_sum (map Float64.abs xs))
                                (Float64.of_Z (Z.of_nat (List.length vals)))))
      end
  end.

(** Lines 132-139: the measure chosen for the frame [tmp]. *)
Definition classify (tmp : DataFrame) : result measure :=
  avg <- sample_average (limit_collect 100 tmp) ;;
  Ok (if looks_like_population avg then Population else Gdp).

(** *** main *)

(** The body of the [try] for one file: the state it leaves, and the
    exception that ended it, if one did.  An assignment made before the
    exception stays. *)
Definition load_as (m : measure) (f : file) (s : state) : state * option exn :=
  match read_and_normalize (loaded f) (path f) (measure_name m) id_vars_default with
  | Raise e => (s, Some e)
  | Ok df =>
      let s := assign m df s in
      match simple_clean df (measure_name m) with
      | Raise e => (s, Some e)
      | Ok df =>
          let s := assign m df s in
          (print (Loaded m (path f) (count df)) s, None)
      end
  end.

Definition auto_detect (f : file) (s : state) : state * option exn :=
  match read_and_normalize (loaded f) (path f) "value" id_vars_default with
  | Raise e => (s, Some e)
  | Ok tmp =>
      match classify tmp with
      | Raise e => (s, Some e)
      | Ok m =>
          let df := withColumnRenamed "value" (measure_name m) tmp in
          let s := assign m df s in
          match simple_clean df (measure_name m) with
          | Raise e => (s, Some e)
          | Ok df =>
              let s := assign m df s in
              (print (AutoDetected m (path f) (count df)) s, None)
          end
      end
  end.

Definition try_file (f : file) (s : state) : state * option exn :=
  match dispatch (path f) with
  | HPopulation => load_as Population f s
  | HGdp => load_as Gdp f s
  | HNone => auto_detect f s
  end.

(** One turn of the loop of line 117, with its [except]. *)
Definition process_file (s : state) (f : file) : state :=
  match try_file f s with
  | (s', None) => s'
  | (s', Some e) => print (Skipping (path f) e) s'
  end.

Definition initial_state : state :=
  {| pop_df := None; gdp_df := None; printed := [] |}.

Definition is_some {A : Type} (o : option A) : bool :=
  match o with Some _ => true | None => false end.

(** [csvs] is the list [list_csvs] returns, each file with its content.  The
    result is what was printed and the frame handed to the writer, if any;
    [Raise] is an exception that leaves [main]. *)
Definition main (csvs : list file) : result (list event * option DataFrame) :=
  match csvs with
  | [] => Ok ([NoCsvFiles], None)
  | _ =>
      let s := fold_left process_file csvs initial_state in
      let s :=
        if is_some (pop_df s) && is_some (gdp_df s) then s
        else print (WarningMissing (is_some (pop_df s)) (is_some (gdp_df s))) s in
      joined <- merge (pop_df s) (gdp_df s) ;;
      match joined with
      | None => Ok (printed s ++ [NoData], None)
      | Some j => Ok (printed s ++ [Wrote], Some j)
      end
  end.

End Pipeline.

(** *** Conversions for the worked examples *)

(** Plain decimal numerals, on which every reading of text as a number
    agrees; anything else is read as NULL. *)
Fixpoint decimal_digits (acc : Z) (s : string) : option Z :=
  match s with
  | EmptyString => Some acc
  | String c r =>
      if PyStr.isdigit_char c
      then decimal_digits (10 * acc + Z.of_nat (nat_of_ascii c - 48)) r
      else None
  end.

Definition decimal (s : string) : option Z :=
  match s with
  | EmptyString => None
  | _ => decimal_digits 0 s
  end.

Definition decimal_cast_int (v : value) : value :=
  match v with
  | VStr s => match decimal s with Some z => VInt z | None => VNull end
  | VInt z => VInt z
  | _ => VNull
  end.

Definition decimal_cast_double (v : value) : value :=
  match v with
  | VStr s => match decimal s with Some z => VDbl (Float64.of_Z z) | None => VNull end
  | VInt z => VDbl (Float64.of_Z z)
  | VDbl d => VDbl d
  | VNull => VNull
  end.

Definition decimal_float (s : string) : option Float64.float :=
  option_map Float64.of_Z (decimal s).

(** The frame of a measure in the canonical schema. *)
Definition measure_table (m : measure) (rs : list row) : DataFrame :=
  {| columns := ["country_name"; "country_code"; "year"; measure_name m]; rows := rs |}.

(** A row of the canonical schema, as the data model gives it. *)
Record CanonicalRow : Type := mkRow {
  country_name : option string;
  country_code : option string;
  year : option Z;
  measure_value : option Float64.float
}.

Definition text_cell (o : option string) : value :=
  match o with Some s => VStr s | None => VNull end.

Definition int_cell (o : option Z) : value :=
  match o with Some z => VInt z | None => VNull end.

Definition double_cell (o : option Float64.float) : value :=
  match o with Some d => VDbl d | None => VNull end.

Definition to_row (r : CanonicalRow) : row :=
  [text_cell (country_name r); text_cell (country_code r);
   int_cell (year r); double_cell (measure_value r)].

(** The values a sample holds, in the order of its rows. *)
Definition sample_values (sample : list CanonicalRow) : list Float64.float :=
  flat_map (fun r => match measure_value r with Some d => [d] | None => [] end) sample.

(** The mean of the absolute values, as line 138 computes it: the sum and
    the division are rounded. *)
Definition mean_abs (how : Float64.summation) (vals : list Float64.float)
  : Float64.float :=
  Float64.div (Float64.sum how (map Float64.abs vals))
              (Float64.of_Z (Z.of_nat (List.length vals))).

(** The mean of the absolute values as a number: it is above [bound] when
    the sum of the absolute values is above [bound] times their count. *)
Definition exact_mean_abs_above (bound : Z) (vals : list Float64.float) : Prop :=
  (bound * Z.of_nat (List.length vals) * 2 ^ 1074
   < fold_right Z.add 0 (map (fun x => Z.abs (Float64.scaled x)) vals))%Z.

(** The first index at which a name stands in a list of column names. *)
Fixpoint column_index (c : string) (cols : list string) : nat :=
  match cols with
  | [] => 0
  | a :: r => if String.eqb a c then 0 else S (column_index c r)
  end.

(** The cell of row [r] of [df] under the column named [c]. *)
Definition field (df : DataFrame) (r : row) (c : string) : value :=
  cell r (column_index c (columns df)).

(** The key of a row of a canonical frame or of the merged frame:
    (country_code, year), the second and third cells. *)
Definition key_of (r : row) : list value := [cell r 1; cell r 2].

(** The rows of a list that bear a key. *)
Definition rows_with_key (k : list value) (rs : list row) : list row :=
  filter (fun r => keys_eqb k (key_of r)) rs.

(** The join condition of line 163 on two canonical frames. *)
Definition same_code_and_year (l r : row) : bool :=
  sql_eqb (cell l 1) (cell r 1) && (sql_eqb (cell l 2) (cell r 2) && true).

(** The select of lines 164-170 on one row of the join of two canonical
    frames. *)
Definition merged_row (p : option row * option row) : row :=
  [coalesce (side_cell (fst p) 0) (side_cell (snd p) 0);
   coalesce (side_cell (fst p) 1) (side_cell (snd p) 1);
   coalesce (side_cell (fst p) 2) (side_cell (snd p) 2);
   side_cell (fst p) 3;
   side_cell (snd p) 3].

(** The columns of the frame of a measure. *)
Definition canonical_columns (m : string) : list string :=
  ["country_name"; "country_code"; "year"; m].


(** *** Frames of the worked examples *)

Definition aland_wide : DataFrame :=
  {| columns := ["Country Name"; "Country Code"; "2020"; "2021"];
     rows := [[VStr "Aland"; VStr "ALA"; VStr "100"; VStr "110"]] |}.

Definition one_id_wide : DataFrame :=
  {| columns := ["Country Name"; "2020"];
     rows := [[VStr "Aland"; VStr "100"]] |}.

Definition two_value_columns : list string :=
  ["Country Name"; "Country Code"; "Year"; "Value"; "Val"].

Definition spaced_code : DataFrame :=
  measure_table Gdp [[VStr "United States"; VStr "U S A"; VInt 2020;
                      VDbl (Float64.of_Z 21)]].

Definition pop_without_code : DataFrame :=
  {| columns := ["country_name"; "year"; "population"];
     rows := [[VStr "Aland"; VInt 2020; VDbl (Float64.of_Z 100)]] |}.

Definition gdp_canonical : DataFrame :=
  measure_table Gdp [[VStr "Aland"; VStr "ALA"; VInt 2020; VDbl (Float64.of_Z 5)]].

(** 1 + 2^-34 and 1 + 3 * 2^-34, which a CSV file gives as
    1.0000000000582076609134674072265625 and
    1.0000000001746229827404022216796875. *)
Definition one_and_a_bit : Float64.float := S754_finite false 4503599627632640 (-52).

Definition one_and_three_bits : Float64.float := S754_finite false 4503599628156928 (-52).

(** Two values whose mean is 1,000,000 + 2^-35. *)
Definition mean_just_above : DataFrame :=
  {| columns := ["country_name"; "country_code"; "year"; "value"];
     rows := [[VStr "Aland"; VStr "ALA"; VInt 2020; VDbl (Float64.of_Z 1999999)];
              [VStr "Aland"; VStr "ALA"; VInt 2021; VDbl one_and_a_bit]] |}.

(** Three values whose sum the two summations round differently. *)
Definition sum_sensitive : DataFrame :=
  {| columns := ["country_name"; "country_code"; "year"; "value"];
     rows := [[VStr "Aland"; VStr "ALA"; VInt 2020; VDbl (Float64.of_Z 2999998)];
              [VStr "Aland"; VStr "ALA"; VInt 2021; VDbl one_and_three_bits];
              [VStr "Aland"; VStr "ALA"; VInt 2022; VDbl one_and_three_bits]] |}.

(** A long table whose value column bears a backquote in its name. *)
Definition backquote_table : DataFrame :=
  {| columns := ["Country Name"; "Country Code"; "Year"; "va`lue"];
     rows := [[VStr "Aland"; VStr "ALA"; VStr "2020"; VStr "100"]] |}.

(** *** Definitions for the further properties *)

(** The string starts with a character that [str.strip] removes. *)
Definition starts_with_blank (s : string) : bool :=
  match s with
  | String c _ => PyStr.isspace c
  | EmptyString => false
  end.

(** The row that the long branch of [read_and_normalize] makes of a row:
    the cells under the name, code, year and value columns, the last two
    cast. *)
Definition normalized_row (cast_int cast_double : value -> value)
  (n c y v : nat) (r : row) : row :=
  [cell r n; cell r c; cast_int (cell r y); cast_double (cell r v)].

Definition long_table : DataFrame :=
  {| columns := ["Country Name"; "Country Code"; "Year"; "Value"];
     rows := [[VStr "Aland"; VStr "ALA"; VStr "2020"; VStr "100"];
              [VStr "Aland"; VStr "ALA"; VStr "2021"; VStr "110"]] |}.

Definition no_code_table : DataFrame :=
  {| columns := ["Country Name"; "Year"; "Value"];
     rows := [[VStr "Aland"; VStr "2020"; VStr "100"]] |}.


(** What [simple_clean] makes of one row of a canonical frame: the name
    trimmed, the code through [clean_code]. *)
Definition clean_row (r : row) : row :=
  map_nth 1 clean_code (map_nth 0 (on_text trim) r).

(** The rows that [simple_clean] keeps of a canonical frame: year and
    measure not NULL. *)
Definition has_year_and_measure (r : row) : bool :=
  negb (is_null (cell r 2)) && negb (is_null (cell r 3)).

(** The opposite of the value of a row. *)
Definition negate_value (r : CanonicalRow) : CanonicalRow :=
  {| country_name := country_name r; country_code := country_code r;
     year := year r; measure_value := option_map SFopp (measure_value r) |}.

(** The file that a printed line is about. *)
Definition event_path (e : event) : option string :=
  match e with
  | Loaded _ p _ | AutoDetected _ p _ | Skipping p _ => Some p
  | _ => None
  end.

(** The frame of measure [m] held in a state. *)
Definition frame_of (m : measure) (s : state) : option DataFrame :=
  match m with
  | Population => pop_df s
  | Gdp => gdp_df s
  end.

(** The later of two frames, when there is a later one. *)
Definition or_earlier (earlier later : option DataFrame) : option DataFrame :=
  match later with
  | Some d => Some d
  | None => earlier
  end.

Definition later_table : DataFrame :=
  {| columns := ["Country Name"; "Country Code"; "Year"; "Value"];
     rows := [[VStr "Aland"; VStr "ALA"; VStr "2020"; VStr "120"];
              [VStr "Aland"; VStr "ALA"; VStr "2022"; VStr ""]] |}.



(** [s.endswith(suffix)] *)
Fixpoint endswith (s suffix : string) : bool :=
  String.eqb s suffix ||
  match s with
  | EmptyString => false
  | String _ r => endswith r suffix
  end.

(** [os.path.join(a, b)] on a POSIX system. *)
Definition os_path_join (a b : string) : string :=
  if PyStr.startswith b "/" then b
  else if String.eqb a "" || endswith a "/" then a ++ b
  else a ++ "/" ++ b.

Definition is_csv (f : string) : bool := endswith (PyStr.lower f) ".csv".

(** [listing] is what [os.listdir(raw_dir)] returns. *)
Definition list_csvs (raw_dir : string) (listing : list string) : list string :=
  map (os_path_join raw_dir) (filter is_csv listing).

(* ================================================================= *)
(** * Properties *)

(** ** Results *)

Lemma mapM_ok {A B : Type} (f : A -> result B) (g : A -> B) (l : list A) :
  (forall a, In a l -> f a = Ok (g a)) -> mapM f l = Ok (map g l).
Proof.
  induction l as [|a l IH]; intros H; simpl.
  - reflexivity.
  - rewrite (H a (or_introl eq_refl)). simpl.
    rewrite IH by (intros b Hb; apply H; right; exact Hb).
    reflexivity.
Qed.

Lemma filter_all_false {A : Type} (f : A -> bool) (l : list A) :
  (forall x, In x l -> f x = false) -> filter f l = [].
Proof.
  induction l as [|a l IH]; intros H; simpl.
  - reflexivity.
  - rewrite (H a (or_introl eq_refl)). apply IH.
    intros x Hx. apply H. right. exact Hx.
Qed.

(** ** Column resolution *)

Lemma resolver_refl c : resolver c c = true.
Proof. unfold resolver. apply String.eqb_refl. Qed.

Lemma resolver_true a b : resolver a b = true <-> PyStr.lower a = PyStr.lower b.
Proof. unfold resolver. apply String.eqb_eq. Qed.

Lemma resolver_false a b : resolver a b = false <-> PyStr.lower a <> PyStr.lower b.
Proof. unfold resolver. apply String.eqb_neq. Qed.

Lemma positions_from_none k name cols :
  ~ In (PyStr.lower name) (map PyStr.lower cols) -> positions_from k name cols = [].
Proof.
  revert k. induction cols as [|c r IH]; intros k H; simpl.
  - reflexivity.
  - destruct (resolver c name) eqn:E.
    + exfalso. apply H. left. apply resolver_true. exact E.
    + apply IH. intros Hin. apply H. right. exact Hin.
Qed.

Lemma positions_from_unique cols :
  NoDup (map PyStr.lower cols) ->
  forall k i c, nth_error cols i = Some c -> positions_from k c cols = [k + i].
Proof.
  induction cols as [|a r IH]; intros Hnd k i c Hi.
  - destruct i; discriminate.
  - simpl in Hnd. apply NoDup_cons_iff in Hnd. destruct Hnd as [Hnot Hnd].
    destruct i as [|j]; simpl in Hi.
    + injection Hi as ->. simpl. rewrite resolver_refl.
      rewrite positions_from_none by exact Hnot.
      f_equal. lia.
    + simpl. destruct (resolver a c) eqn:E.
      * exfalso. apply Hnot. apply resolver_true in E. rewrite E.
        apply in_map. eapply nth_error_In. exact Hi.
      * rewrite (IH Hnd (S k) j c Hi). f_equal. lia.
Qed.

Lemma column_index_nth c cols :
  In c cols -> nth_error cols (column_index c cols) = Some c.
Proof.
  induction cols as [|a r IH]; intros H; simpl.
  - destruct H.
  - destruct (String.eqb a c) eqn:E.
    + apply String.eqb_eq in E. subst. reflexivity.
    + simpl. apply IH. destruct H as [H|H]; [|exact H].
      subst. rewrite String.eqb_refl in E. discriminate.
Qed.

(** With names that differ beyond case, a column of the frame resolves, to
    its own index. *)
Lemma resolve_column cols c :
  NoDup (map PyStr.lower cols) -> In c cols ->
  resolve c cols = Ok (column_index c cols).
Proof.
  intros Hnd Hin. unfold resolve.
  rewrite (positions_from_unique cols Hnd 0 _ c (column_index_nth c cols Hin)).
  reflexivity.
Qed.

(** ** wide_to_long *)

Lemma length_flat_map_blocks {A B : Type} (f : A -> list B) (n : nat) (l : list A) :
  (forall a, In a l -> List.length (f a) = n) ->
  List.length (flat_map f l) = List.length l * n.
Proof.
  induction l as [|a l IH]; intros H; simpl.
  - reflexivity.
  - rewrite length_app, (H a (or_introl eq_refl)), IH; [reflexivity|].
    intros b Hb. apply H. right. exact Hb.
Qed.

Lemma nth_error_flat_map_blocks {A B : Type} (f : A -> list B) (n : nat) (l : list A) :
  (forall a, In a l -> List.length (f a) = n) ->
  forall i j a, nth_error l i = Some a -> j < n ->
  nth_error (flat_map f l) (i * n + j) = nth_error (f a) j.
Proof.
  induction l as [|b l IH]; intros H i j a Hi Hj.
  - destruct i; discriminate.
  - simpl. destruct i as [|i]; simpl in Hi.
    + injection Hi as ->. simpl.
      apply nth_error_app1. rewrite (H a (or_introl eq_refl)). exact Hj.
    + assert (Hb : List.length (f b) = n) by (apply H; left; reflexivity).
      rewrite nth_error_app2 by (rewrite Hb; simpl; lia).
      rewrite Hb. replace (S i * n + j - n) with (i * n + j) by (simpl; lia).
      apply IH; [|exact Hi|exact Hj].
      intros c Hc. apply H. right. exact Hc.
Qed.

Lemma mapM_app {A B : Type} (f : A -> result B) (l1 l2 : list A) (r1 r2 : list B) :
  mapM f l1 = Ok r1 -> mapM f l2 = Ok r2 -> mapM f (l1 ++ l2) = Ok (r1 ++ r2).
Proof.
  revert r1. induction l1 as [|a l1 IH]; intros r1 H1 H2; simpl in *.
  - injection H1 as <-. exact H2.
  - destruct (f a) as [b|e]; [|discriminate]. simpl in *.
    destruct (mapM f l1) as [bs|e]; [|discriminate]. simpl in *.
    injection H1 as <-. rewrite (IH bs eq_refl H2). reflexivity.
Qed.

Lemma mapM_map {A B C : Type} (f : B -> result C) (h : A -> B) (l : list A) :
  mapM f (map h l) = mapM (fun a => f (h a)) l.
Proof.
  induction l as [|a l IH]; simpl; [reflexivity|]. rewrite IH. reflexivity.
Qed.

Lemma expr_columns_of_columns (l : list string) :
  flat_map expr_columns (map Column l) = l.
Proof.
  induction l as [|c l IH]; simpl; [reflexivity|]. rewrite IH. reflexivity.
Qed.

Lemma expand_columns (r : row) (idx : list nat) :
  forall o, fold_left (expand_step r) (map RColumn idx) [o] = [o ++ map (cell r) idx].
Proof.
  induction idx as [|i idx IH]; intros o; simpl.
  - rewrite app_nil_r. reflexivity.
  - rewrite IH, <- app_assoc. reflexivity.
Qed.

Lemma expand_stack (r : row) (idx : list nat) (ys : list (string * nat)) :
  expand (map RColumn idx ++ [RStack ys]) r
  = map (fun yi => map (cell r) idx ++ [VStr (fst yi); cell r (snd yi)]) ys.
Proof.
  unfold expand. rewrite fold_left_app, expand_columns. simpl.
  apply app_nil_r.
Qed.

(** The select list of [wide_to_long] given to Spark expression by
    expression: on a table whose column names differ beyond case, with [r]
    rows, [k] identifier columns and [n] year columns taken among its
    columns, the result has [r * n] rows and [k + 2] columns, and the row
    made of input row [i] and of the [j]-th year column stands at position
    [i * n + j] with the identifier cells of row [i], the name of the year
    column and the cell of row [i] under it. *)
Lemma select_exprs_reshape (df : DataFrame) (id_vars ycs : list string) :
  NoDup (map PyStr.lower (columns df)) ->
  incl id_vars (columns df) ->
  incl ycs (columns df) ->
  exists long,
    select_exprs (map Column id_vars ++ [Stack ycs]) df = Ok long /\
    List.length (rows long) = List.length (rows df) * List.length ycs /\
    columns long = id_vars ++ ["year"; "value"] /\
    Forall (fun o => List.length o = List.length id_vars + 2) (rows long) /\
    forall i j r y,
      nth_error (rows df) i = Some r ->
      nth_error ycs j = Some y ->
      nth_error (rows long) (i * List.length ycs + j)
      = Some (map (field df r) id_vars ++ [VStr y; field df r y]).
Proof.
  intros Hnd Hids Hys. unfold select_exprs.
  set (idx := map (fun c => column_index c (columns df)) id_vars).
  set (ys := map (fun y => (y, column_index y (columns df))) ycs).
  assert (E : mapM (resolve_expr (columns df)) (map Column id_vars ++ [Stack ycs])
              = Ok (map RColumn idx ++ [RStack ys])).
  { apply mapM_app.
    - unfold idx. rewrite mapM_map, map_map. apply mapM_ok.
      intros c Hc. simpl.
      rewrite resolve_column; [reflexivity | exact Hnd | apply Hids; exact Hc].
    - simpl. rewrite (mapM_ok _ (fun y => (y, column_index y (columns df)))).
      + reflexivity.
      + intros y Hy. rewrite resolve_column; [reflexivity | exact Hnd | apply Hys; exact Hy]. }
  rewrite E. cbn [bind].
  assert (G : filter is_generator (map Column id_vars ++ [Stack ycs]) = [Stack ycs]).
  { rewrite filter_app. simpl. rewrite filter_all_false; [reflexivity|].
    intros e He. apply in_map_iff in He. destruct He as [c [<- _]]. reflexivity. }
  rewrite G. cbn [List.length Nat.ltb Nat.leb].
  assert (C : flat_map expr_columns (map Column id_vars ++ [Stack ycs])
              = id_vars ++ ["year"; "value"]).
  { rewrite flat_map_app, expr_columns_of_columns. reflexivity. }
  rewrite C.
  assert (Hlen : forall a, In a (rows df) ->
                 List.length (expand (map RColumn idx ++ [RStack ys]) a) = List.length ycs).
  { intros a _. rewrite expand_stack. unfold ys. rewrite !length_map. reflexivity. }
  eexists. split; [reflexivity|]. cbn [rows columns].
  split; [apply length_flat_map_blocks; exact Hlen|].
  split; [reflexivity|].
  split.
  - apply Forall_forall. intros o Ho. apply in_flat_map in Ho.
    destruct Ho as [a [_ Ho]]. rewrite expand_stack in Ho. apply in_map_iff in Ho.
    destruct Ho as [yi [<- _]]. rewrite length_app, length_map. unfold idx.
    rewrite length_map. reflexivity.
  - intros i j r y Hi Hj.
    rewrite (nth_error_flat_map_blocks _ _ _ Hlen i j r Hi)
      by (apply nth_error_Some; rewrite Hj; discriminate).
    rewrite expand_stack. unfold ys. rewrite nth_error_map, nth_error_map, Hj. simpl.
    unfold idx. rewrite map_map. reflexivity.
Qed.

Lemma parse_expression_list (a b : option sql_expr) (t : sql_text) :
  parse_expression (a :: b :: t) = Raise (ParseException "mismatched input, expecting <EOF>").
Proof. destruct a; reflexivity. Qed.

Lemma select_list_pieces (id_vars ycs : list string) :
  exists a b t,
    plus_comma (join_comma (map backquoted id_vars)) (stack_text ycs) = a :: b :: t.
Proof.
  unfold plus_comma, stack_text. destruct id_vars as [|c l].
  - exists None, (Some (Stack ycs)), []. reflexivity.
  - cbn [map join_comma List.concat backquoted app].
    destruct (List.concat (map backquoted l)) as [|x t].
    + exists (Some (Column c)), (Some (Stack ycs)), []. reflexivity.
    + exists (Some (Column c)), x, (t ++ [Some (Stack ycs)]). reflexivity.
Qed.

(** [wide_to_long] returns no frame: [None] without year-like columns, and a
    [ParseException] with them, whatever the identifier columns. *)
Lemma wide_to_long_raises (df : DataFrame) (id_vars : list string) :
  wide_to_long df id_vars
  = match year_cols df with
    | [] => Ok None
    | _ => Raise (ParseException "mismatched input, expecting <EOF>")
    end.
Proof.
  unfold wide_to_long. destruct (year_cols df) as [|y ycs]; [reflexivity|].
  destruct (select_list_pieces id_vars (y :: ycs)) as [a [b [t E]]].
  unfold selectExpr. cbn [mapM]. rewrite E, parse_expression_list. reflexivity.
Qed.

(** ** The measure of a file: its name, then its values *)

Lemma startswith_population_pop s :
  PyStr.startswith s "population" = true -> PyStr.startswith s "pop" = true.
Proof.
  destruct s as [|a [|b [|c s]]]; cbn [PyStr.startswith]; try discriminate.
  - rewrite andb_false_r. discriminate.
  - rewrite !andb_false_r. discriminate.
  - intros H. apply andb_true_iff in H. destruct H as [Ha H].
    apply andb_true_iff in H. destruct H as [Hb H].
    apply andb_true_iff in H. destruct H as [Hc _].
    rewrite Ha, Hb, Hc. destruct s; reflexivity.
Qed.

(** A name that contains "population" contains "pop": the second test of
    line 120 adds nothing to the first. *)
Lemma contains_population_pop s :
  PyStr.contains "population" s = true -> PyStr.contains "pop" s = true.
Proof.
  induction s as [|a s IH].
  - simpl. discriminate.
  - intros H. cbn [PyStr.contains] in H |- *.
    apply orb_true_iff in H. apply orb_true_iff. destruct H as [H|H].
    + left. apply startswith_population_pop. exact H.
    + right. apply IH. exact H.
Qed.

Lemma threshold_value : threshold = S754_finite false 8589934592000000 (-33).
Proof. vm_compute. reflexivity. Qed.

(** A float above the threshold is not zero: the test [avg and ...] of line
    139 only rules out the missing average. *)
Lemma truthy_above_threshold a :
  Float64.ltb threshold a = true -> Float64.truthy a = true.
Proof.
  rewrite threshold_value.
  destruct a as [s|s| |s m e]; simpl; intros H.
  - destruct s; discriminate.
  - destruct s; reflexivity.
  - reflexivity.
  - destruct s; reflexivity.
Qed.

Lemma looks_like_population_some a :
  looks_like_population (Some a) = Float64.ltb threshold a.
Proof.
  unfold looks_like_population.
  destruct (Float64.ltb threshold a) eqn:E.
  - rewrite (truthy_above_threshold a E). reflexivity.
  - apply andb_false_r.
Qed.

Lemma non_null_double_cells (l : list CanonicalRow) :
  filter (fun v => negb (is_null v)) (map (fun r => double_cell (measure_value r)) l)
  = map VDbl (sample_values l).
Proof.
  induction l as [|r l IH]; simpl.
  - reflexivity.
  - destruct (measure_value r); simpl; rewrite IH; reflexivity.
Qed.

Section PipelineFacts.

Variable cast_int : value -> value.
Variable cast_double : value -> value.
Variable float_of_text : string -> option Float64.float.
Variable builtin_sum : Float64.summation.

Lemma sample_average_canonical (l : list CanonicalRow) :
  sample_average float_of_text builtin_sum (map to_row l)
  = Ok (match sample_values l with
        | [] => None
        | vals => Some (mean_abs builtin_sum vals)
        end).
Proof.
  destruct l as [|r0 l0]; [reflexivity|].
  unfold sample_average.
  change (map to_row (r0 :: l0)) with (to_row r0 :: map to_row l0).
  cbv iota beta. change (to_row r0 :: map to_row l0) with (map to_row (r0 :: l0)).
  generalize (r0 :: l0) as l. intros l.
  rewrite (mapM_ok _ (fun o => cell o 3) (map to_row l)).
  2:{ intros a Ha. apply in_map_iff in Ha. destruct Ha as [r [<- _]]. reflexivity. }
  rewrite map_map. simpl bind.
  change (map (fun x => cell (to_row x) 3) l)
    with (map (fun r => double_cell (measure_value r)) l).
  rewrite non_null_double_cells.
  destruct (sample_values l) as [|v vs]; [reflexivity|].
  change (map VDbl (v :: vs)) with (VDbl v :: map VDbl vs).
  cbv iota beta.
  change (VDbl v :: map VDbl vs) with (map VDbl (v :: vs)).
  rewrite (mapM_ok _ (fun v => match v with VDbl d => d | _ => Float64.zero end)).
  2:{ intros a Ha; apply in_map_iff in Ha; destruct Ha as [d [<- _]]; reflexivity. }
  rewrite map_map, map_id, length_map. reflexivity.
Qed.

Lemma classify_canonical (cols : list string) (rs : list CanonicalRow) :
  classify float_of_text builtin_sum {| columns := cols; rows := map to_row rs |}
  = Ok (match sample_values (firstn 100 rs) with
        | [] => Gdp
        | vals => if Float64.ltb threshold (mean_abs builtin_sum vals) then Population else Gdp
        end).
Proof.
  unfold classify, limit_collect. cbn [rows].
  rewrite firstn_map, sample_average_canonical. cbn [bind].
  destruct (sample_values (firstn 100 rs)) as [|v vs]; [reflexivity|].
  rewrite looks_like_population_some. reflexivity.
Qed.

(** C3, as amended.  For a frame in the canonical schema the classifier
    raises nothing and its answer is a function of the first 100 rows, in
    their order: gdp when none of them has a value, and otherwise population
    exactly when the mean of the absolute values of their non-null values,
    as the script computes it in doubles (the built-in sum, then the
    division by the count, each rounded), is above 1,000,000; two frames
    with the same first 100 rows get the same answer. *)
Theorem classify_first_hundred_rows (cols : list string) (rs : list CanonicalRow) :
  classify float_of_text builtin_sum {| columns := cols; rows := map to_row rs |}
  = Ok (match sample_values (firstn 100 rs) with
        | [] => Gdp
        | vals => if Float64.ltb threshold (mean_abs builtin_sum vals) then Population else Gdp
        end)
  /\ (forall cols' rs',
        firstn 100 rs' = firstn 100 rs ->
        classify float_of_text builtin_sum {| columns := cols'; rows := map to_row rs' |}
        = classify float_of_text builtin_sum {| columns := cols; rows := map to_row rs |}).
Proof.
  split.
  - apply classify_canonical.
  - intros cols' rs' H. rewrite !classify_canonical, H. reflexivity.
Qed.

(** C3, as the claim words it, fails on two values whose mean is
    1,000,000 + 2^-35: the sum of the two is rounded to 2,000,000 by either
    summation, the mean computed is 1,000,000 and the answer is gdp. *)
Lemma classify_rounded_mean_counterexample :
  exact_mean_abs_above 1000000 [Float64.of_Z 1999999; one_and_a_bit] /\
  classify decimal_float Float64.FromLeft mean_just_above = Ok Gdp /\
  classify decimal_float Float64.Compensated mean_just_above = Ok Gdp.
Proof.
  split; [|split].
  - unfold exact_mean_abs_above. vm_compute. reflexivity.
  - vm_compute. reflexivity.
  - vm_compute. reflexivity.
Qed.

(** C10.  The branch taken for a file is read off its lower-cased base
    name: a name that contains "pop" or "population" is loaded as
    population, whatever else it contains; a name that contains neither but
    contains "gdp" or "gross" is loaded as gdp; the classifier is reached
    only for a name that contains none of the four. *)
Theorem dispatch_by_file_name (f : file) (s : state) :
  (PyStr.contains "pop" (PyStr.lower (PyStr.basename (path f))) = true \/
   PyStr.contains "population" (PyStr.lower (PyStr.basename (path f))) = true ->
   dispatch (path f) = HPopulation /\
   try_file cast_int cast_double float_of_text builtin_sum f s
   = load_as cast_int cast_double Population f s) /\
  (PyStr.contains "pop" (PyStr.lower (PyStr.basename (path f))) = false ->
   PyStr.contains "population" (PyStr.lower (PyStr.basename (path f))) = false ->
   PyStr.contains "gdp" (PyStr.lower (PyStr.basename (path f))) = true \/
   PyStr.contains "gross" (PyStr.lower (PyStr.basename (path f))) = true ->
   dispatch (path f) = HGdp /\
   try_file cast_int cast_double float_of_text builtin_sum f s
   = load_as cast_int cast_double Gdp f s) /\
  (PyStr.contains "pop" (PyStr.lower (PyStr.basename (path f))) = false ->
   PyStr.contains "population" (PyStr.lower (PyStr.basename (path f))) = false ->
   PyStr.contains "gdp" (PyStr.lower (PyStr.basename (path f))) = false ->
   PyStr.contains "gross" (PyStr.lower (PyStr.basename (path f))) = false ->
   dispatch (path f) = HNone /\
   try_file cast_int cast_double float_of_text builtin_sum f s
   = auto_detect cast_int cast_double float_of_text builtin_sum f s) /\
  (dispatch (path f) = HNone ->
   PyStr.contains "pop" (PyStr.lower (PyStr.basename (path f))) = false /\
   PyStr.contains "population" (PyStr.lower (PyStr.basename (path f))) = false /\
   PyStr.contains "gdp" (PyStr.lower (PyStr.basename (path f))) = false /\
   PyStr.contains "gross" (PyStr.lower (PyStr.basename (path f))) = false).
Proof.
  unfold try_file, dispatch.
  set (name := PyStr.lower (PyStr.basename (path f))).
  destruct (PyStr.contains "pop" name) eqn:Ep;
    destruct (PyStr.contains "population" name) eqn:Epn;
    destruct (PyStr.contains "gdp" name) eqn:Eg;
    destruct (PyStr.contains "gross" name) eqn:Er;
    cbn [orb]; cbv iota;
    repeat split; try discriminate; intros;
    repeat match goal with H : _ \/ _ |- _ => destruct H end;
    try discriminate; reflexivity.
Qed.

End PipelineFacts.

(** ** The value column of a long table *)

Lemma find_app_skip {A : Type} (f : A -> bool) (l1 l2 : list A) :
  (forall x, In x l1 -> f x = false) -> find f (l1 ++ l2) = find f l2.
Proof.
  induction l1 as [|a l1 IH]; intros H; simpl.
  - reflexivity.
  - rewrite (H a (or_introl eq_refl)). apply IH.
    intros x Hx. apply H. right. exact Hx.
Qed.

Lemma find_all_false {A : Type} (f : A -> bool) (l : list A) :
  (forall x, In x l -> f x = false) -> find f l = None.
Proof.
  intros H. rewrite <- (app_nil_r l). rewrite find_app_skip by exact H. reflexivity.
Qed.

Lemma py_last_app {A : Type} (l : list A) (c : A) : py_last (l ++ [c]) = Ok c.
Proof.
  induction l as [|a l IH]; simpl.
  - reflexivity.
  - rewrite IH. destruct (l ++ [c]) eqn:E; [|reflexivity].
    destruct l; discriminate.
Qed.

Lemma is_preferred_iff m c :
  is_preferred m c = true <->
  PyStr.lower c = "value" \/ PyStr.lower c = PyStr.lower m \/ PyStr.lower c = "val".
Proof.
  unfold is_preferred, PyStr.mem. cbn [existsb].
  rewrite !orb_true_iff, !String.eqb_eq. intuition discriminate.
Qed.

(** C4, as stated, fails: with a column "Value" before a column "Val" the
    code takes "Val", the last of the two, where the order of priority of
    the names gives "Value". *)
Lemma value_col_priority_counterexample :
  select_value_col two_value_columns "gdp" = Ok "Val" /\
  spec_value_col two_value_columns "gdp" = Ok "Value".
Proof. split; reflexivity. Qed.

(** C4, amended.  The value column is the last column whose lower-cased name
    is one of "value", the lower-cased measure name and "val", whichever of
    the three it is (the name being non-empty); when no column bears one of
    them, the last column whose lower-cased name is not one of "country
    name", "country", "country code", "year"; and the last column of the
    table when every column bears one of those. *)
Theorem select_value_col_rightmost (cols : list string) (m : string) :
  (forall pre c post,
      cols = pre ++ c :: post ->
      is_preferred m c = true -> c <> "" ->
      (forall x, In x post -> is_preferred m x = false) ->
      select_value_col cols m = Ok c) /\
  ((forall x, In x cols -> is_preferred m x = false) ->
   forall pre c post,
      cols = pre ++ c :: post ->
      is_id_name c = false ->
      (forall x, In x post -> is_id_name x = true) ->
      select_value_col cols m = Ok c) /\
  ((forall x, In x cols -> is_preferred m x = false) ->
   (forall x, In x cols -> is_id_name x = true) ->
   forall pre c, cols = pre ++ [c] -> select_value_col cols m = Ok c).
Proof.
  split; [|split].
  - intros pre c post -> Hc Hne Hpost. unfold select_value_col.
    rewrite rev_app_distr. cbn [rev]. rewrite <- app_assoc. cbn [app].
    rewrite find_app_skip by (intros x Hx; apply Hpost, in_rev; exact Hx).
    cbn [find]. rewrite Hc. destruct c; [contradiction|reflexivity].
  - intros Hnone pre c post -> Hc Hpost. unfold select_value_col.
    rewrite find_all_false by (intros x Hx; apply Hnone, in_rev; exact Hx).
    rewrite filter_app. cbn [filter]. rewrite Hc. cbn [negb].
    rewrite (filter_all_false _ post)
      by (intros x Hx; rewrite (Hpost x Hx); reflexivity).
    rewrite py_last_app.
    destruct (filter _ pre ++ [c]) eqn:E; [|reflexivity].
    destruct (filter (fun c0 => negb (is_id_name c0)) pre); discriminate.
  - intros Hnone Hids pre c ->. unfold select_value_col.
    rewrite find_all_false by (intros x Hx; apply Hnone, in_rev; exact Hx).
    rewrite filter_all_false by (intros x Hx; rewrite (Hids x Hx); reflexivity).
    apply py_last_app.
Qed.

(** ** simple_clean *)

(** *** Trimming *)

Lemma ltrim_no_lead s : starts_with_space (ltrim s) = false.
Proof.
  induction s as [|c r IH]; simpl.
  - reflexivity.
  - destruct (Ascii.eqb c " ") eqn:E; [exact IH|]. simpl. exact E.
Qed.

Lemma ltrim_fixed s : starts_with_space s = false -> ltrim s = s.
Proof. destruct s as [|c r]; simpl; intros H; [reflexivity|]. rewrite H. reflexivity. Qed.

Lemma rtrim_head c r d t : rtrim (String c r) = String d t -> d = c.
Proof.
  cbn [rtrim]. destruct (rtrim r); [destruct (Ascii.eqb c " ")|]; intros H;
    try discriminate; injection H as -> _; reflexivity.
Qed.

Lemma rtrim_no_lead s : starts_with_space s = false -> starts_with_space (rtrim s) = false.
Proof.
  destruct s as [|c r]; intros H; [reflexivity|].
  destruct (rtrim (String c r)) as [|d t] eqn:E; [reflexivity|].
  apply rtrim_head in E. subst d. exact H.
Qed.

Lemma rtrim_cons c r :
  rtrim (String c r)
  = match rtrim r with
    | EmptyString => if Ascii.eqb c " " then EmptyString else String c EmptyString
    | String d t => String c (String d t)
    end.
Proof. reflexivity. Qed.

Lemma rtrim_idem s : rtrim (rtrim s) = rtrim s.
Proof.
  induction s as [|c r IH]; [reflexivity|].
  rewrite rtrim_cons. destruct (rtrim r) as [|d t] eqn:E.
  - destruct (Ascii.eqb c " ") eqn:Ec; [reflexivity|].
    rewrite rtrim_cons. simpl. rewrite Ec. reflexivity.
  - rewrite rtrim_cons, IH. reflexivity.
Qed.

Lemma trim_idem s : trim (trim s) = trim s.
Proof.
  unfold trim.
  rewrite (ltrim_fixed (rtrim (ltrim s))) by (apply rtrim_no_lead, ltrim_no_lead).
  apply rtrim_idem.
Qed.

(** *** The pattern of line 100 *)

Lemma remove_matches_fixed s : has_match s = false -> remove_matches false s = s.
Proof.
  induction s as [|c r IH]; [reflexivity|].
  cbn [has_match remove_matches andb]. intros H.
  apply orb_false_iff in H. destruct H as [H1 H2].
  rewrite H1, (IH H2). reflexivity.
Qed.

Lemma remove_matches_clean s :
  forall b,
    has_match (remove_matches b s) = false /\
    (b = true \/ starts_with_s s = false -> starts_with_s (remove_matches b s) = false).
Proof.
  induction s as [|c r IH]; intros b.
  - split; reflexivity.
  - cbn [remove_matches].
    destruct (b && is_s c) eqn:E1.
    { split; [apply IH | intros _; apply IH; left; reflexivity]. }
    destruct (is_backslash c && starts_with_s r) eqn:E2.
    { split; [apply IH | intros _; apply IH; left; reflexivity]. }
    split.
    + cbn [has_match]. apply orb_false_iff. split; [|apply IH].
      destruct (is_backslash c); [|reflexivity]. cbn [andb] in *.
      apply IH. right. exact E2.
    + cbn [starts_with_s]. intros [-> | H]; [|exact H].
      exact E1.
Qed.

Lemma has_match_ltrim s : has_match s = false -> has_match (ltrim s) = false.
Proof.
  induction s as [|c r IH]; [reflexivity|].
  intros H. cbn [ltrim]. destruct (Ascii.eqb c " "); [|exact H].
  apply IH. cbn [has_match] in H. apply orb_false_iff in H. apply H.
Qed.

Lemma has_match_rtrim s : has_match s = false -> has_match (rtrim s) = false.
Proof.
  induction s as [|c r IH]; [reflexivity|].
  intros H. cbn [has_match] in H. apply orb_false_iff in H. destruct H as [H1 H2].
  rewrite rtrim_cons. destruct (rtrim r) as [|d t] eqn:E.
  - destruct (Ascii.eqb c " "); [reflexivity|].
    cbn [has_match starts_with_s]. rewrite andb_false_r. reflexivity.
  - cbn [has_match]. apply orb_false_iff. split.
    + destruct r as [|d' r']; [discriminate|].
      apply rtrim_head in E. subst d'. exact H1.
    + specialize (IH H2). cbn [has_match] in IH. exact IH.
Qed.

Lemma clean_name_idem v : on_text trim (on_text trim v) = on_text trim v.
Proof. destruct v; simpl; try reflexivity. rewrite trim_idem. reflexivity. Qed.

Lemma clean_code_idem v : clean_code (clean_code v) = clean_code v.
Proof.
  destruct v as [|s| |]; try reflexivity.
  unfold clean_code, regexp_replace_backslash_s. cbn [on_text]. f_equal.
  rewrite (remove_matches_fixed (trim (remove_matches false s))).
  - apply trim_idem.
  - unfold trim. apply has_match_rtrim, has_match_ltrim, remove_matches_clean.
Qed.

(** *** Columns and rows updated in place *)

Lemma set_nth_idem {A : Type} (i : nat) (x : A) (l : list A) :
  set_nth i x (set_nth i x l) = set_nth i x l.
Proof.
  revert i. induction l as [|a l IH]; intros [|i]; simpl; try reflexivity.
  rewrite IH. reflexivity.
Qed.

Lemma set_nth_comm {A : Type} (i j : nat) (x y : A) (l : list A) :
  i <> j -> set_nth i x (set_nth j y l) = set_nth j y (set_nth i x l).
Proof.
  revert i j. induction l as [|a l IH]; intros [|i] [|j] H; simpl; try reflexivity.
  - contradiction.
  - rewrite IH by lia. reflexivity.
Qed.

Lemma map_nth_twice {A : Type} (i : nat) (f g : A -> A) (l : list A) :
  map_nth i f (map_nth i g l) = map_nth i (fun x => f (g x)) l.
Proof.
  revert i. induction l as [|a l IH]; intros [|i]; simpl; try reflexivity.
  rewrite IH. reflexivity.
Qed.

Lemma map_nth_comm {A : Type} (i j : nat) (f g : A -> A) (l : list A) :
  i <> j -> map_nth i f (map_nth j g l) = map_nth j g (map_nth i f l).
Proof.
  revert i j. induction l as [|a l IH]; intros [|i] [|j] H; simpl; try reflexivity.
  - contradiction.
  - rewrite IH by lia. reflexivity.
Qed.

Lemma map_nth_ext {A : Type} (i : nat) (f g : A -> A) (l : list A) :
  (forall x, f x = g x) -> map_nth i f l = map_nth i g l.
Proof.
  intros H. revert i. induction l as [|a l IH]; intros [|i]; simpl; try reflexivity.
  - rewrite H. reflexivity.
  - rewrite IH. reflexivity.
Qed.

Lemma mem_set_nth (x c : string) (j : nat) (l : list string) :
  nth_error l j = Some c -> PyStr.mem x (set_nth j x l) = true.
Proof.
  unfold PyStr.mem. revert j. induction l as [|a l IH]; intros [|j] H; simpl in *;
    try discriminate.
  - rewrite String.eqb_refl. reflexivity.
  - rewrite (IH j H). apply orb_true_r.
Qed.

(** *** Resolution after a column was renamed in place *)

Lemma positions_from_In cols :
  forall k j name,
    In j (positions_from k name cols) ->
    exists c, nth_error cols (j - k) = Some c /\ resolver c name = true /\ k <= j.
Proof.
  induction cols as [|a r IH]; intros k j name H; simpl in H.
  - destruct H.
  - destruct (resolver a name) eqn:E.
    + destruct H as [<- | H].
      * exists a. rewrite Nat.sub_diag. auto.
      * apply IH in H. destruct H as [c [Hc [Hr Hk]]].
        exists c. replace (j - k) with (S (j - S k)) by lia. simpl. repeat split; auto; lia.
    + apply IH in H. destruct H as [c [Hc [Hr Hk]]].
      exists c. replace (j - k) with (S (j - S k)) by lia. simpl. repeat split; auto; lia.
Qed.

Lemma resolve_ok name cols i :
  resolve name cols = Ok i ->
  exists c, nth_error cols i = Some c /\ resolver c name = true.
Proof.
  unfold resolve. destruct (positions_from 0 name cols) as [|j [|j' l]] eqn:E;
    intros H; try discriminate.
  injection H as <-.
  destruct (positions_from_In cols 0 j name) as [c [Hc [Hr _]]].
  - rewrite E. left. reflexivity.
  - exists c. rewrite Nat.sub_0_r in Hc. auto.
Qed.

Lemma resolver_same a b n : resolver a b = true -> resolver a n = resolver b n.
Proof. unfold resolver. intros H. apply String.eqb_eq in H. rewrite H. reflexivity. Qed.

Lemma positions_from_set_nth cols :
  forall k i c n name,
    nth_error cols i = Some c -> resolver c n = true ->
    positions_from k name (set_nth i n cols) = positions_from k name cols.
Proof.
  induction cols as [|a r IH]; intros k [|i] c n name Hc Hr; simpl in *; try discriminate.
  - injection Hc as ->. rewrite <- (resolver_same _ _ name Hr). reflexivity.
  - rewrite (IH (S k) i c n name Hc Hr). reflexivity.
Qed.

(** Renaming the column that [name] resolves to by [name] itself changes
    the resolution of no name. *)
Lemma resolve_set_nth name cols i :
  resolve name cols = Ok i ->
  forall name', resolve name' (set_nth i name cols) = resolve name' cols.
Proof.
  intros H name'. apply resolve_ok in H. destruct H as [c [Hc Hr]].
  unfold resolve. rewrite (positions_from_set_nth cols 0 i c name name' Hc Hr).
  reflexivity.
Qed.

Lemma resolve_distinct a b cols i j :
  resolve a cols = Ok i -> resolve b cols = Ok j -> resolver a b = false -> i <> j.
Proof.
  intros Ha Hb Hab ->. apply resolve_ok in Ha, Hb.
  destruct Ha as [c [Hc Hca]]. destruct Hb as [c' [Hc' Hcb]].
  rewrite Hc in Hc'. injection Hc' as <-.
  apply resolver_true in Hca, Hcb. apply resolver_false in Hab.
  apply Hab. rewrite <- Hca. exact Hcb.
Qed.

(** *** Filters *)

Lemma filter_map_fixed {A : Type} (h : A -> A) (p : A -> bool) (l : list A) :
  (forall r, h (h r) = h r) ->
  filter p (map h (filter p (map h l))) = filter p (map h l).
Proof.
  intros H. induction l as [|a l IH]; simpl.
  - reflexivity.
  - destruct (p (h a)) eqn:E; simpl.
    + rewrite H, E, IH. reflexivity.
    + exact IH.
Qed.

Lemma filter_twice {A : Type} (p q : A -> bool) (l : list A) :
  filter q (filter p l) = filter (fun r => p r && q r) l.
Proof.
  induction l as [|a l IH]; simpl.
  - reflexivity.
  - destruct (p a); simpl; [destruct (q a)|]; rewrite IH; reflexivity.
Qed.

(** *** One pass, then another *)

Lemma withColumn_map_ok name f cols rs i :
  resolve name cols = Ok i ->
  withColumn_map name f {| columns := cols; rows := rs |}
  = Ok {| columns := set_nth i name cols; rows := map (map_nth i f) rs |}.
Proof. intros H. unfold withColumn_map. cbn [columns rows]. rewrite H. reflexivity. Qed.

Lemma filter_not_null_ok name cols rs i :
  resolve name cols = Ok i ->
  filter_not_null name {| columns := cols; rows := rs |}
  = Ok {| columns := cols; rows := filter (fun r => negb (is_null (cell r i))) rs |}.
Proof. intros H. unfold filter_not_null. cbn [columns rows]. rewrite H. reflexivity. Qed.

Lemma simple_clean_shape df m d :
  simple_clean df m = Ok d ->
  exists (h : row -> row) (p : row -> bool),
    rows d = filter p (map h (rows df)) /\
    (forall r, h (h r) = h r) /\
    (forall rs, simple_clean {| columns := columns d; rows := rs |} m
                = Ok {| columns := columns d; rows := filter p (map h rs) |}).
Proof.
  destruct df as [cols rs0]. unfold simple_clean.
  destruct (resolve "country_name" cols) as [i|e] eqn:Ei.
  2:{ unfold withColumn_map. cbn [columns]. rewrite Ei. discriminate. }
  rewrite (withColumn_map_ok _ _ _ _ _ Ei). cbn [bind columns].
  set (cols1 := set_nth i "country_name" cols).
  assert (Ei1 : resolve "country_name" cols1 = Ok i)
    by (unfold cols1; rewrite resolve_set_nth; assumption).
  assert (Hc1 : set_nth i "country_name" cols1 = cols1) by apply set_nth_idem.
  destruct (PyStr.mem "country_code" cols1) eqn:Ecc.
  - destruct (resolve "country_code" cols1) as [j|e] eqn:Ej.
    2:{ unfold withColumn_map. cbn [columns]. rewrite Ej. discriminate. }
    rewrite (withColumn_map_ok _ _ _ _ _ Ej). cbn [bind columns].
    set (cols2 := set_nth j "country_code" cols1).
    assert (Hij : i <> j) by (apply (resolve_distinct _ _ _ _ _ Ei1 Ej); reflexivity).
    assert (Ei2 : resolve "country_name" cols2 = Ok i)
      by (unfold cols2; rewrite (resolve_set_nth _ _ _ Ej); assumption).
    assert (Ej2 : resolve "country_code" cols2 = Ok j)
      by (unfold cols2; rewrite (resolve_set_nth _ _ _ Ej); assumption).
    assert (Hc2 : set_nth i "country_name" cols2 = cols2)
      by (unfold cols2; rewrite set_nth_comm, Hc1 by exact Hij; reflexivity).
    assert (Hc3 : set_nth j "country_code" cols2 = cols2) by apply set_nth_idem.
    assert (Hmem : PyStr.mem "country_code" cols2 = true).
    { destruct (resolve_ok _ _ _ Ej) as [c [Hc _]]. apply (mem_set_nth _ c _ _ Hc). }
    set (h := fun r : row => map_nth j clean_code (map_nth i (on_text trim) r)).
    assert (Hh : forall r, h (h r) = h r).
    { intros r. unfold h.
      rewrite (map_nth_comm i j) by exact Hij.
      rewrite map_nth_twice, map_nth_twice.
      rewrite (map_nth_ext j _ clean_code) by apply clean_code_idem.
      rewrite (map_nth_ext i _ (on_text trim)) by apply clean_name_idem.
      reflexivity. }
    destruct (resolve "year" cols2) as [y|e] eqn:Ey.
    2:{ unfold filter_not_null. cbn [columns]. rewrite Ey. discriminate. }
    rewrite (filter_not_null_ok _ _ _ _ Ey). cbn [bind columns].
    destruct (PyStr.mem m cols2) eqn:Em.
    + destruct (resolve m cols2) as [k|e] eqn:Ek.
      2:{ unfold filter_not_null. cbn [columns]. rewrite Ek. discriminate. }
      rewrite (filter_not_null_ok _ _ _ _ Ek). intros H. injection H as <-.
      exists h, (fun r => negb (is_null (cell r y)) && negb (is_null (cell r k))).
      cbn [columns rows]. split; [|split; [exact Hh|]].
      * rewrite filter_twice, map_map. reflexivity.
      * intros rs. rewrite (withColumn_map_ok _ _ _ _ _ Ei2), Hc2. cbn [bind columns].
        rewrite Hmem, (withColumn_map_ok _ _ _ _ _ Ej2), Hc3. cbn [bind columns].
        rewrite (filter_not_null_ok _ _ _ _ Ey). cbn [bind columns].
        rewrite Em, (filter_not_null_ok _ _ _ _ Ek), filter_twice, map_map.
        reflexivity.
    + intros H. injection H as <-.
      exists h, (fun r => negb (is_null (cell r y))).
      cbn [columns rows]. split; [|split; [exact Hh|]].
      * rewrite map_map. reflexivity.
      * intros rs. rewrite (withColumn_map_ok _ _ _ _ _ Ei2), Hc2. cbn [bind columns].
        rewrite Hmem, (withColumn_map_ok _ _ _ _ _ Ej2), Hc3. cbn [bind columns].
        rewrite (filter_not_null_ok _ _ _ _ Ey). cbn [bind columns].
        rewrite Em, map_map. reflexivity.
  - cbn [bind columns].
    set (h := map_nth i (on_text trim)).
    assert (Hh : forall r, h (h r) = h r).
    { intros r. unfold h. rewrite map_nth_twice.
      apply map_nth_ext, clean_name_idem. }
    destruct (resolve "year" cols1) as [y|e] eqn:Ey.
    2:{ unfold filter_not_null. cbn [columns]. rewrite Ey. discriminate. }
    rewrite (filter_not_null_ok _ _ _ _ Ey). cbn [bind columns].
    destruct (PyStr.mem m cols1) eqn:Em.
    + destruct (resolve m cols1) as [k|e] eqn:Ek.
      2:{ unfold filter_not_null. cbn [columns]. rewrite Ek. discriminate. }
      rewrite (filter_not_null_ok _ _ _ _ Ek). intros H. injection H as <-.
      exists h, (fun r => negb (is_null (cell r y)) && negb (is_null (cell r k))).
      cbn [columns rows]. split; [|split; [exact Hh|]].
      * rewrite filter_twice. reflexivity.
      * intros rs. rewrite (withColumn_map_ok _ _ _ _ _ Ei1), Hc1. cbn [bind columns].
        rewrite Ecc. cbn [bind columns].
        rewrite (filter_not_null_ok _ _ _ _ Ey). cbn [bind columns].
        rewrite Em, (filter_not_null_ok _ _ _ _ Ek), filter_twice.
        reflexivity.
    + intros H. injection H as <-.
      exists h, (fun r => negb (is_null (cell r y))).
      cbn [columns rows]. split; [|split; [exact Hh|]].
      * reflexivity.
      * intros rs. rewrite (withColumn_map_ok _ _ _ _ _ Ei1), Hc1. cbn [bind columns].
        rewrite Ecc. cbn [bind columns].
        rewrite (filter_not_null_ok _ _ _ _ Ey). cbn [bind columns].
        rewrite Em. reflexivity.
Qed.

Lemma simple_clean_fixed df m d : simple_clean df m = Ok d -> simple_clean d m = Ok d.
Proof.
  intros H. destruct (simple_clean_shape df m d H) as [h [p [Hrows [Hh Hd]]]].
  destruct d as [cols rs]. cbn [columns rows] in *.
  rewrite Hd, Hrows, filter_map_fixed by exact Hh. reflexivity.
Qed.

Lemma simple_clean_returns (m : measure) (rs : list row) :
  exists d, simple_clean (measure_table m rs) (measure_name m) = Ok d.
Proof. destruct m; eexists; reflexivity. Qed.

(** C8.  Cleaning a frame that was cleaned changes nothing: when
    [simple_clean] returns a frame, [simple_clean] of that frame returns the
    same frame (and when it raises there is no frame to clean again); on a
    frame of a measure in the canonical schema it does return a frame. *)
Theorem simple_clean_idempotent (df : DataFrame) (m : string) :
  (d <- simple_clean df m ;; simple_clean d m) = simple_clean df m /\
  (forall d, simple_clean df m = Ok d -> simple_clean d m = Ok d) /\
  (forall (mm : measure) (rs : list row),
      exists d, simple_clean (measure_table mm rs) (measure_name mm) = Ok d /\
                simple_clean d (measure_name mm) = Ok d).
Proof.
  split; [|split].
  - destruct (simple_clean df m) as [d|e] eqn:E; cbn [bind].
    + apply (simple_clean_fixed df m d E).
    + reflexivity.
  - apply simple_clean_fixed.
  - intros mm rs. destruct (simple_clean_returns mm rs) as [d Hd].
    exists d. split; [exact Hd|]. apply (simple_clean_fixed _ _ _ Hd).
Qed.

(** ** The merge *)

Lemma merge_both (P G : list row) :
  merge (Some (measure_table Population P)) (Some (measure_table Gdp G))
  = Ok (Some {| columns := output_columns;
                rows := drop_dups_by key_of
                          (map merged_row (outer_join same_code_and_year P G)) |}).
Proof. reflexivity. Qed.

Lemma merge_population_only (P : list row) :
  merge (Some (measure_table Population P)) None
  = Ok (Some {| columns := output_columns;
                rows := drop_dups_by key_of
                          (map (fun r => r ++ [VNull])
                               (map (fun r => map (cell r) [0; 1; 2; 3]) P)) |}).
Proof. reflexivity. Qed.

Lemma merge_gdp_only (G : list row) :
  merge None (Some (measure_table Gdp G))
  = Ok (Some {| columns := ["country_name"; "country_code"; "year"; "gdp"; "population"];
                rows := drop_dups_by key_of
                          (map (fun r => r ++ [VNull])
                               (map (fun r => map (cell r) [0; 1; 2; 3]) G)) |}).
Proof. reflexivity. Qed.

(** *** Equality of keys *)

Lemma float_eqb_eq x y : Float64.eqb x y = true <-> x = y.
Proof.
  destruct x as [a|a| |a m e], y as [b|b| |b n f]; simpl;
    try (split; [discriminate | intros H; discriminate H]).
  - rewrite Bool.eqb_true_iff. split; [intros ->; reflexivity | intros H; injection H; auto].
  - rewrite Bool.eqb_true_iff. split; [intros ->; reflexivity | intros H; injection H; auto].
  - split; reflexivity.
  - rewrite !andb_true_iff, Bool.eqb_true_iff, Pos.eqb_eq, Z.eqb_eq.
    split; [intros [[-> ->] ->]; reflexivity | intros H; injection H; auto].
Qed.

Lemma value_eqb_eq a b : value_eqb a b = true <-> a = b.
Proof.
  destruct a, b; simpl; try (split; [discriminate | intros H; discriminate H]).
  - split; reflexivity.
  - rewrite String.eqb_eq. split; [intros ->; reflexivity | intros H; injection H; auto].
  - rewrite Z.eqb_eq. split; [intros ->; reflexivity | intros H; injection H; auto].
  - rewrite float_eqb_eq. split; [intros ->; reflexivity | intros H; injection H; auto].
Qed.

Lemma keys_eqb_eq a b : keys_eqb a b = true <-> a = b.
Proof.
  revert b. induction a as [|x a IH]; intros [|y b]; simpl;
    try (split; [discriminate | intros H; discriminate H]).
  - split; reflexivity.
  - rewrite andb_true_iff, value_eqb_eq, IH.
    split; [intros [-> ->]; reflexivity | intros H; injection H; auto].
Qed.

Lemma sql_eqb_eq a b : sql_eqb a b = true -> a = b /\ a <> VNull.
Proof.
  unfold sql_eqb. intros H. apply andb_true_iff in H. destruct H as [H Hv].
  apply andb_true_iff in H. destruct H as [Ha _].
  apply value_eqb_eq in Hv. split; [exact Hv|].
  intros ->. discriminate.
Qed.

(** *** dropDuplicates *)

Section DropDuplicates.

Variable key : row -> list value.

Lemma drop_dups_incl l r : In r (drop_dups_by key l) -> In r l.
Proof.
  revert r. induction l as [|a l IH]; intros r H; simpl in H.
  - destruct H.
  - destruct H as [<- | H]; [left; reflexivity|].
    right. apply IH. apply filter_In in H. apply H.
Qed.

Lemma drop_dups_keys l k :
  In k (map key (drop_dups_by key l)) <-> In k (map key l).
Proof.
  split.
  - intros H. apply in_map_iff in H. destruct H as [r [<- Hr]].
    apply in_map. apply drop_dups_incl. exact Hr.
  - induction l as [|a l IH]; intros H; simpl in *.
    + destruct H.
    + destruct (keys_eqb (key a) k) eqn:E.
      * left. apply keys_eqb_eq. exact E.
      * right. destruct H as [H | H].
        { apply keys_eqb_eq in H. rewrite H in E. discriminate. }
        apply IH in H. apply in_map_iff in H. destruct H as [r [<- Hr]].
        apply in_map. apply filter_In. split; [exact Hr|]. rewrite E. reflexivity.
Qed.

Lemma NoDup_map_filter (f : row -> bool) l :
  NoDup (map key l) -> NoDup (map key (filter f l)).
Proof.
  induction l as [|a l IH]; intros H; simpl.
  - constructor.
  - simpl in H. apply NoDup_cons_iff in H. destruct H as [Ha Hl].
    destruct (f a); [|apply IH; exact Hl].
    simpl. constructor; [|apply IH; exact Hl].
    intros Hin. apply Ha. apply in_map_iff in Hin. destruct Hin as [r [Hk Hr]].
    rewrite <- Hk. apply in_map. apply filter_In in Hr. apply Hr.
Qed.

Lemma drop_dups_NoDup l : NoDup (map key (drop_dups_by key l)).
Proof.
  induction l as [|a l IH]; simpl.
  - constructor.
  - constructor; [|apply NoDup_map_filter; exact IH].
    intros Hin. apply in_map_iff in Hin. destruct Hin as [r [Hk Hr]].
    apply filter_In in Hr. destruct Hr as [_ Hr].
    rewrite <- Hk in Hr. assert (E : keys_eqb (key r) (key r) = true)
      by (apply keys_eqb_eq; reflexivity).
    rewrite E in Hr. discriminate.
Qed.

(** In a list with no two rows of the same key, a key that occurs is the
    key of exactly one row. *)
Lemma one_row_with_key l k :
  NoDup (map key l) -> In k (map key l) ->
  List.length (filter (fun r => keys_eqb k (key r)) l) = 1.
Proof.
  induction l as [|a l IH]; intros Hnd Hin; simpl in *.
  - destruct Hin.
  - apply NoDup_cons_iff in Hnd. destruct Hnd as [Ha Hl].
    destruct (keys_eqb k (key a)) eqn:E.
    + apply keys_eqb_eq in E. subst k. simpl. f_equal.
      rewrite filter_all_false; [reflexivity|].
      intros r Hr. destruct (keys_eqb (key a) (key r)) eqn:E'; [|reflexivity].
      exfalso. apply Ha. apply keys_eqb_eq in E'. rewrite E'. apply in_map. exact Hr.
    + apply IH; [exact Hl|]. destruct Hin as [Hin | Hin]; [|exact Hin].
      subst k. assert (E' : keys_eqb (key a) (key a) = true)
        by (apply keys_eqb_eq; reflexivity).
      rewrite E' in E. discriminate.
Qed.

End DropDuplicates.

(** *** The outer join *)

Lemma outer_join_In (on : row -> row -> bool) (L R : list row) p :
  In p (outer_join on L R) <->
  (exists l, In l L /\ filter (on l) R = [] /\ p = (Some l, None)) \/
  (exists l r, In l L /\ In r R /\ on l r = true /\ p = (Some l, Some r)) \/
  (exists r, In r R /\ existsb (fun l => on l r) L = false /\ p = (None, Some r)).
Proof.
  unfold outer_join. rewrite in_app_iff, in_flat_map, in_map_iff. split.
  - intros [[l [Hl Hp]] | [r [<- Hr]]].
    + destruct (filter (on l) R) as [|r0 ms] eqn:E.
      * left. exists l. destruct Hp as [<- | []]. auto.
      * right. left. apply in_map_iff in Hp. destruct Hp as [r [<- Hr]].
        rewrite <- E in Hr. apply filter_In in Hr. exists l, r. tauto.
    + right. right. apply filter_In in Hr. destruct Hr as [Hr Hn].
      exists r. apply negb_true_iff in Hn. auto.
  - intros [[l [Hl [E ->]]] | [[l [r [Hl [Hr [Hon ->]]]]] | [r [Hr [Hn ->]]]]].
    + left. exists l. split; [exact Hl|]. rewrite E. left. reflexivity.
    + left. exists l. split; [exact Hl|].
      assert (Hin : In r (filter (on l) R)) by (apply filter_In; auto).
      destruct (filter (on l) R) as [|r0 ms]; [destruct Hin|].
      apply (in_map (fun r1 => (Some l, Some r1))). exact Hin.
    + right. exists r. split; [reflexivity|]. apply filter_In.
      split; [exact Hr|]. rewrite Hn. reflexivity.
Qed.

Lemma coalesce_null_r a : coalesce a VNull = a.
Proof. destruct a; reflexivity. Qed.

Lemma coalesce_not_null a b : a <> VNull -> coalesce a b = a.
Proof. destruct a; [contradiction | reflexivity..]. Qed.

Lemma key_of_left_only l : key_of (merged_row (Some l, None)) = key_of l.
Proof. unfold key_of, merged_row, cell. simpl. rewrite !coalesce_null_r. reflexivity. Qed.

Lemma key_of_right_only r : key_of (merged_row (None, Some r)) = key_of r.
Proof. reflexivity. Qed.

Lemma key_of_matched l r :
  same_code_and_year l r = true ->
  key_of (merged_row (Some l, Some r)) = key_of l /\ key_of l = key_of r.
Proof.
  unfold same_code_and_year. intros H.
  apply andb_true_iff in H. destruct H as [H1 H2].
  apply andb_true_iff in H2. destruct H2 as [H2 _].
  apply sql_eqb_eq in H1, H2. destruct H1 as [E1 N1]. destruct H2 as [E2 N2].
  split.
  - change (key_of (merged_row (Some l, Some r)))
      with [coalesce (cell l 1) (cell r 1); coalesce (cell l 2) (cell r 2)].
    rewrite (coalesce_not_null _ _ N1), (coalesce_not_null _ _ N2). reflexivity.
  - unfold key_of. rewrite E1, E2. reflexivity.
Qed.

Lemma joined_keys (P G : list row) k :
  In k (map key_of (map merged_row (outer_join same_code_and_year P G))) <->
  In k (map key_of P) \/ In k (map key_of G).
Proof.
  rewrite map_map, in_map_iff. split.
  - intros [p [<- Hp]]. apply outer_join_In in Hp.
    destruct Hp as [[l [Hl [_ ->]]] | [[l [r [Hl [Hr [Hon ->]]]]] | [r [Hr [_ ->]]]]].
    + left. rewrite key_of_left_only. apply in_map. exact Hl.
    + left. rewrite (proj1 (key_of_matched l r Hon)). apply in_map. exact Hl.
    + right. rewrite key_of_right_only. apply in_map. exact Hr.
  - intros [H | H]; apply in_map_iff in H.
    + destruct H as [l [<- Hl]].
      destruct (filter (same_code_and_year l) G) as [|r ms] eqn:E.
      * exists (Some l, None). split; [apply key_of_left_only|].
        apply outer_join_In. left. exists l. auto.
      * assert (Hr : In r (filter (same_code_and_year l) G)) by (rewrite E; left; reflexivity).
        apply filter_In in Hr. destruct Hr as [Hr Hon].
        exists (Some l, Some r). split; [apply (key_of_matched l r Hon)|].
        apply outer_join_In. right. left. exists l, r. auto.
    + destruct H as [r [<- Hr]].
      destruct (existsb (fun l => same_code_and_year l r) P) eqn:E.
      * apply existsb_exists in E. destruct E as [l [Hl Hon]].
        exists (Some l, Some r). split.
        { destruct (key_of_matched l r Hon) as [E1 E2]. rewrite E1. exact E2. }
        apply outer_join_In. right. left. exists l, r. auto.
      * exists (None, Some r). split; [apply key_of_right_only|].
        apply outer_join_In. right. right. exists r. auto.
Qed.

Lemma joined_measures (P G : list row) o :
  In o (map merged_row (outer_join same_code_and_year P G)) ->
  (~ In (key_of o) (map key_of G) -> cell o 4 = VNull) /\
  (~ In (key_of o) (map key_of P) -> cell o 3 = VNull).
Proof.
  intros H. apply in_map_iff in H. destruct H as [p [<- Hp]].
  apply outer_join_In in Hp.
  destruct Hp as [[l [Hl [_ ->]]] | [[l [r [Hl [Hr [Hon ->]]]]] | [r [Hr [_ ->]]]]].
  - split; [reflexivity|]. intros Hn. exfalso. apply Hn.
    rewrite key_of_left_only. apply in_map. exact Hl.
  - destruct (key_of_matched l r Hon) as [E1 E2].
    split; intros Hn; exfalso; apply Hn; rewrite E1.
    + rewrite E2. apply in_map. exact Hr.
    + apply in_map. exact Hl.
  - split; [|reflexivity]. intros Hn. exfalso. apply Hn.
    rewrite key_of_right_only. apply in_map. exact Hr.
Qed.

Lemma projected_keys (rs : list row) :
  map key_of (map (fun r => r ++ [VNull]) (map (fun r => map (cell r) [0; 1; 2; 3]) rs))
  = map key_of rs.
Proof. rewrite !map_map. apply map_ext. reflexivity. Qed.

(** C1.  For the frames of population and of gdp in the canonical schema,
    whatever their rows: the merge returns a frame in which no two rows have
    the same (country_code, year), every (country_code, year) of a row of
    either input is the key of exactly one row, every row bears a key of an
    input, and a row whose key is in one input only has NULL for the measure
    of the other; and the same with one frame alone, the measure of the
    absent frame being NULL in every row. *)
Theorem merge_one_row_per_key (P G : list row) :
  (exists out,
      merge (Some (measure_table Population P)) (Some (measure_table Gdp G))
      = Ok (Some out) /\
      columns out = output_columns /\
      NoDup (map key_of (rows out)) /\
      (forall k, In k (map key_of P) \/ In k (map key_of G) ->
                 List.length (rows_with_key k (rows out)) = 1) /\
      (forall o, In o (rows out) ->
                 In (key_of o) (map key_of P) \/ In (key_of o) (map key_of G)) /\
      (forall o, In o (rows out) -> ~ In (key_of o) (map key_of G) ->
                 field out o "gdp" = VNull) /\
      (forall o, In o (rows out) -> ~ In (key_of o) (map key_of P) ->
                 field out o "population" = VNull)) /\
  (exists out,
      merge (Some (measure_table Population P)) None = Ok (Some out) /\
      NoDup (map key_of (rows out)) /\
      (forall k, In k (map key_of P) -> List.length (rows_with_key k (rows out)) = 1) /\
      (forall o, In o (rows out) ->
                 In (key_of o) (map key_of P) /\ field out o "gdp" = VNull)) /\
  (exists out,
      merge None (Some (measure_table Gdp G)) = Ok (Some out) /\
      NoDup (map key_of (rows out)) /\
      (forall k, In k (map key_of G) -> List.length (rows_with_key k (rows out)) = 1) /\
      (forall o, In o (rows out) ->
                 In (key_of o) (map key_of G) /\ field out o "population" = VNull)).
Proof.
  split; [|split].
  - eexists. split; [apply merge_both|]. cbn [columns rows].
    split; [reflexivity|].
    split; [apply drop_dups_NoDup|].
    split; [|split; [|split]].
    + intros k Hk. unfold rows_with_key.
      apply one_row_with_key; [apply drop_dups_NoDup|].
      apply drop_dups_keys, joined_keys. exact Hk.
    + intros o Ho. apply joined_keys. apply in_map. apply drop_dups_incl in Ho. exact Ho.
    + intros o Ho. apply drop_dups_incl in Ho. apply (joined_measures P G o Ho).
    + intros o Ho. apply drop_dups_incl in Ho. apply (joined_measures P G o Ho).
  - eexists. split; [apply merge_population_only|]. cbn [columns rows].
    split; [apply drop_dups_NoDup|]. split.
    + intros k Hk. unfold rows_with_key.
      apply one_row_with_key; [apply drop_dups_NoDup|].
      apply drop_dups_keys. rewrite projected_keys. exact Hk.
    + intros o Ho. apply drop_dups_incl in Ho. split.
      * rewrite <- projected_keys. apply in_map. exact Ho.
      * apply in_map_iff in Ho. destruct Ho as [x [<- Hx]].
        apply in_map_iff in Hx. destruct Hx as [r [<- _]]. reflexivity.
  - eexists. split; [apply merge_gdp_only|]. cbn [columns rows].
    split; [apply drop_dups_NoDup|]. split.
    + intros k Hk. unfold rows_with_key.
      apply one_row_with_key; [apply drop_dups_NoDup|].
      apply drop_dups_keys. rewrite projected_keys. exact Hk.
    + intros o Ho. apply drop_dups_incl in Ho. split.
      * rewrite <- projected_keys. apply in_map. exact Ho.
      * apply in_map_iff in Ho. destruct Ho as [x [<- Hx]].
        apply in_map_iff in Hx. destruct Hx as [r [<- _]]. reflexivity.
Qed.

(** ** The loop over the files *)



Section Loop.

Variable cast_int : value -> value.
Variable cast_double : value -> value.
Variable float_of_text : string -> option Float64.float.
Variable builtin_sum : Float64.summation.

Lemma read_and_normalize_columns df path em defaults d :
  read_and_normalize cast_int cast_double df path em defaults = Ok d ->
  columns d = canonical_columns em.
Proof.
  unfold read_and_normalize.
  set (df' := strip_column_names df).
  destruct (PyStr.mem "year" (map PyStr.lower (columns df'))).
  - destruct (select_value_col (columns df') em) as [vc|e]; [|discriminate].
    cbn [bind].
    destruct (parse_cast_of_quoted vc) as [vi|e]; [|discriminate].
    cbn [bind].
    destruct (check_ambiguous _ (columns df')) as [[]|e]; [|discriminate].
    cbn [bind].
    destruct (resolve "Country Name" (columns df')) as [n|e]; [|discriminate].
    destruct (resolve "Country Code" (columns df')) as [c|e]; [|discriminate].
    destruct (resolve "Year" (columns df')) as [y|e]; [|discriminate].
    destruct (resolve vi (columns df')) as [v|e]; [|discriminate].
    cbn [bind]. intros H. injection H as <-. reflexivity.
  - rewrite wide_to_long_raises.
    destruct (year_cols df'); discriminate.
Qed.







End Loop.

(** ** Where the code departs from what it is meant to do *)

(** C2.  The table of the specification's example, with its two identifier
    columns: [wide_to_long] raises, as on every table with a year-like
    column, because the identifier columns and the [stack] generator reach
    [selectExpr] as one text; no frame of [r * n] rows is made. *)
Theorem wide_to_long_parse_error (cast_int cast_double : value -> value) :
  wide_to_long aland_wide ["Country Name"; "Country Code"]
  = Raise (ParseException "mismatched input, expecting <EOF>")
  /\ (forall df id_vars,
        wide_to_long df id_vars
        = match year_cols df with
          | [] => Ok None
          | _ => Raise (ParseException "mismatched input, expecting <EOF>")
          end)
  /\ read_and_normalize cast_int cast_double aland_wide "data/raw/population.csv"
       "population" id_vars_default
     = Raise (ParseException "mismatched input, expecting <EOF>").
Proof.
  split; [reflexivity|]. split; [apply wide_to_long_raises | reflexivity].
Qed.

(** C5.  A wide table with the single identifier column "Country Name":
    [read_and_normalize] raises (the select list of [wide_to_long] again),
    and the dict of the renamings that would follow holds one entry, for
    [country_code]: the second assignment replaced the first. *)
Theorem one_identifier_is_an_error (cast_int cast_double : value -> value) :
  read_and_normalize cast_int cast_double one_id_wide "data/raw/pop.csv" "population"
    id_vars_default
  = Raise (ParseException "mismatched input, expecting <EOF>")
  /\ rename_map_of ["Country Name"] = Ok [("Country Name", "country_code")].
Proof. split; reflexivity. Qed.

(** C6.  The country code "U S A" leaves [simple_clean] as it came: the
    pattern removes a backslash followed by letters s, not whitespace. *)
Theorem country_code_inner_whitespace_kept :
  simple_clean spaced_code "gdp" = Ok spaced_code /\
  remove_whitespace "U S A" = "USA".
Proof. split; reflexivity. Qed.

(** ** The join keys *)


(** Lines 157-160 on a frame with no [country_code] column, which no run of
    [main] makes: the loop builds the frame with the all-NULL column in its
    own variable only; the join, and the projection of the one-table case,
    would be given the frame as it was. *)
Remark standardize_join_keys_rebinds_local :
  standardize_join_keys None (Some pop_without_code)
  = Some {| columns := ["country_name"; "year"; "population"; "country_code"];
            rows := [[VStr "Aland"; VInt 2020; VDbl (Float64.of_Z 100); VNull]] |}
  /\ merge (Some pop_without_code) (Some gdp_canonical)
     = Raise (AnalysisException "cannot resolve country_code")
  /\ merge (Some pop_without_code) None
     = Raise (AnalysisException "cannot resolve country_code").
Proof. repeat split; reflexivity. Qed.

(** ** The examples of the specification *)

Example select_aland :
  select_exprs [Column "Country Name"; Column "Country Code"; Stack ["2020"; "2021"]]
    aland_wide
  = Ok {| columns := ["Country Name"; "Country Code"; "year"; "value"];
          rows := [[VStr "Aland"; VStr "ALA"; VStr "2020"; VStr "100"];
                   [VStr "Aland"; VStr "ALA"; VStr "2021"; VStr "110"]] |}.
Proof. reflexivity. Qed.

Example normalize_long :
  read_and_normalize decimal_cast_int decimal_cast_double
    {| columns := ["Country Name"; "Country Code"; "Year"; "Value"];
       rows := [[VStr "Aland"; VStr "ALA"; VStr "2020"; VStr "100"];
                [VStr "Aland"; VStr "ALA"; VStr "2021"; VStr "110"]] |}
    "data/raw/population.csv" "population" id_vars_default
  = Ok (measure_table Population
          [[VStr "Aland"; VStr "ALA"; VInt 2020; VDbl (Float64.of_Z 100)];
           [VStr "Aland"; VStr "ALA"; VInt 2021; VDbl (Float64.of_Z 110)]]).
Proof. vm_compute. reflexivity. Qed.

Example skip_unrecognized_shape :
  process_file decimal_cast_int decimal_cast_double decimal_float Float64.Compensated initial_state
    (mkFile "data/raw/pop.csv" {| columns := ["a"; "b"]; rows := [[VStr "1"; VStr "2"]] |})
  = print (Skipping "data/raw/pop.csv"
             (ValueError "Could not interpret file data/raw/pop.csv as long or wide year-format CSV."))
      initial_state.
Proof. vm_compute. reflexivity. Qed.

Example skip_schema_mismatch :
  process_file decimal_cast_int decimal_cast_double decimal_float Float64.Compensated initial_state
    (mkFile "data/raw/gdp.csv"
       {| columns := ["Name"; "Year"; "Value"]; rows := [[VStr "A"; VStr "2020"; VStr "2"]] |})
  = print (Skipping "data/raw/gdp.csv" (AnalysisException "cannot resolve Country Name"))
      initial_state.
Proof. vm_compute. reflexivity. Qed.

Example skip_backquoted_value_column :
  process_file decimal_cast_int decimal_cast_double decimal_float Float64.Compensated
    initial_state (mkFile "data/raw/gdp.csv" backquote_table)
  = print (Skipping "data/raw/gdp.csv" (ParseException "syntax error at or near '`'"))
      initial_state.
Proof. vm_compute. reflexivity. Qed.

Example doubled_backquote_is_one :
  quoted_identifier "a``b" = Some "a`b" /\ quoted_identifier "a`" = None.
Proof. split; reflexivity. Qed.

Example run_with_a_wide_file :
  main decimal_cast_int decimal_cast_double decimal_float Float64.Compensated
    [mkFile "data/raw/pop.csv" one_id_wide]
  = Ok ([Skipping "data/raw/pop.csv" (ParseException "mismatched input, expecting <EOF>");
         WarningMissing false false; NoData], None).
Proof. vm_compute. reflexivity. Qed.

Example classify_large_values :
  classify decimal_float Float64.Compensated
    (measure_table Population
       (repeat [VStr "A"; VStr "AAA"; VInt 2020; VDbl (Float64.of_Z 8000000)] 100))
  = Ok Population.
Proof. vm_compute. reflexivity. Qed.

Example classify_small_values :
  classify decimal_float Float64.Compensated
    (measure_table Population
       (repeat [VStr "A"; VStr "AAA"; VInt 2020; VDbl (Float64.of_Z 45000)] 100))
  = Ok Gdp.
Proof. vm_compute. reflexivity. Qed.

Example classify_by_the_sum :
  classify decimal_float Float64.FromLeft sum_sensitive = Ok Gdp /\
  classify decimal_float Float64.Compensated sum_sensitive = Ok Population.
Proof. split; vm_compute; reflexivity. Qed.

Example classify_no_values :
  classify decimal_float Float64.Compensated
    (measure_table Population (repeat [VStr "A"; VStr "AAA"; VInt 2020; VNull] 100))
  = Ok Gdp.
Proof. vm_compute. reflexivity. Qed.

Example merge_usa :
  merge
    (Some (measure_table Population
             [[VStr "United States"; VStr "USA"; VInt 2020; VDbl (Float64.of_Z 331000000)]]))
    (Some (measure_table Gdp
             [[VStr "United States"; VStr "USA"; VInt 2020;
               VDbl (Float64.of_Z 21000000000000)]]))
  = Ok (Some {| columns := output_columns;
                rows := [[VStr "United States"; VStr "USA"; VInt 2020;
                          VDbl (Float64.of_Z 331000000);
                          VDbl (Float64.of_Z 21000000000000)]] |}).
Proof. vm_compute. reflexivity. Qed.

Example clean_code_removes_backslash_s :
  clean_code (VStr (String " " (String "U" (String "\" (String "s" (String "s" "A "))))))
  = VStr "UA".
Proof. reflexivity. Qed.

(* ================================================================= *)
(** * Further properties of the script *)

(** ** Header names *)

Lemma isspace_lower_char c : PyStr.isspace (PyStr.lower_char c) = PyStr.isspace c.
Proof. destruct c as [[] [] [] [] [] [] [] []]; reflexivity. Qed.

Lemma lower_lstrip s : PyStr.lower (PyStr.lstrip s) = PyStr.lstrip (PyStr.lower s).
Proof.
  induction s as [|c r IH]; [reflexivity|].
  cbn [PyStr.lstrip PyStr.lower]. rewrite isspace_lower_char.
  destruct (PyStr.isspace c); [exact IH | reflexivity].
Qed.

Lemma rstrip_cons c r :
  PyStr.rstrip (String c r)
  = match PyStr.rstrip r with
    | EmptyString => if PyStr.isspace c then EmptyString else String c EmptyString
    | String d t => String c (String d t)
    end.
Proof. reflexivity. Qed.

Lemma lower_rstrip s : PyStr.lower (PyStr.rstrip s) = PyStr.rstrip (PyStr.lower s).
Proof.
  induction s as [|c r IH]; [reflexivity|].
  cbn [PyStr.lower]. rewrite !rstrip_cons, <- IH, isspace_lower_char.
  destruct (PyStr.rstrip r) as [|d t]; cbn [PyStr.lower].
  - destruct (PyStr.isspace c); reflexivity.
  - reflexivity.
Qed.

Lemma lower_strip s : PyStr.lower (PyStr.strip s) = PyStr.strip (PyStr.lower s).
Proof. unfold PyStr.strip. rewrite lower_rstrip, lower_lstrip. reflexivity. Qed.

Lemma lstrip_no_lead s : starts_with_blank (PyStr.lstrip s) = false.
Proof.
  induction s as [|c r IH]; simpl; [reflexivity|].
  destruct (PyStr.isspace c) eqn:E; [exact IH|]. simpl. exact E.
Qed.

Lemma lstrip_fixed s : starts_with_blank s = false -> PyStr.lstrip s = s.
Proof. destruct s as [|c r]; simpl; intros H; [reflexivity|]. rewrite H. reflexivity. Qed.

Lemma rstrip_no_lead s : starts_with_blank s = false -> starts_with_blank (PyStr.rstrip s) = false.
Proof.
  destruct s as [|c r]; intros H; [reflexivity|].
  rewrite rstrip_cons. destruct (PyStr.rstrip r); [|exact H].
  destruct (PyStr.isspace c); [reflexivity | exact H].
Qed.

Lemma rstrip_idem s : PyStr.rstrip (PyStr.rstrip s) = PyStr.rstrip s.
Proof.
  induction s as [|c r IH]; [reflexivity|].
  rewrite rstrip_cons. destruct (PyStr.rstrip r) as [|d t] eqn:E.
  - destruct (PyStr.isspace c) eqn:Ec; [reflexivity|].
    rewrite rstrip_cons. simpl. rewrite Ec. reflexivity.
  - rewrite rstrip_cons, IH. reflexivity.
Qed.

Lemma strip_idem s : PyStr.strip (PyStr.strip s) = PyStr.strip s.
Proof.
  unfold PyStr.strip.
  rewrite (lstrip_fixed (PyStr.rstrip (PyStr.lstrip s)))
    by (apply rstrip_no_lead, lstrip_no_lead).
  apply rstrip_idem.
Qed.

(** Two names that the resolver takes for one another have stripped forms
    that it takes for one another. *)
Lemma resolver_strip a b :
  resolver a b = true -> resolver (PyStr.strip a) (PyStr.strip b) = true.
Proof.
  rewrite !resolver_true, !lower_strip. intros ->. reflexivity.
Qed.

Lemma resolver_stripped a b :
  resolver (PyStr.strip a) b = true -> resolver (PyStr.strip a) (PyStr.strip b) = true.
Proof.
  intros H. apply resolver_strip in H. rewrite strip_idem in H. exact H.
Qed.

Lemma NoDup_middle_l {A : Type} (l1 l2 : list A) (a : A) :
  NoDup (l1 ++ a :: l2) -> ~ In a l1 /\ ~ In a l2.
Proof.
  intros H. apply NoDup_remove_2 in H. split; intros Hin; apply H, in_or_app; auto.
Qed.

Lemma strip_columns_step (todo : list string) :
  forall (done : list string) (rs : list row),
    NoDup (map PyStr.lower (map PyStr.strip (done ++ todo))) ->
    fold_left (fun d c => withColumnRenamed c (PyStr.strip c) d) todo
      {| columns := map PyStr.strip done ++ todo; rows := rs |}
    = {| columns := map PyStr.strip (done ++ todo); rows := rs |}.
Proof.
  induction todo as [|c t IH]; intros done rs Hnd.
  - simpl. rewrite !app_nil_r. reflexivity.
  - cbn [fold_left]. unfold withColumnRenamed at 2. cbn [columns rows].
    replace (map (fun x => if resolver x c then PyStr.strip c else x)
               (map PyStr.strip done ++ c :: t))
      with (map PyStr.strip (done ++ [c]) ++ t).
    + rewrite IH by (rewrite <- app_assoc; exact Hnd).
      rewrite <- app_assoc. reflexivity.
    + rewrite !map_app in Hnd. cbn [map] in Hnd.
      destruct (NoDup_middle_l _ _ _ Hnd) as [Hl Hr].
      rewrite !map_app. cbn [map]. rewrite resolver_refl, <- app_assoc. cbn [app].
      f_equal; [|f_equal].
      * rewrite map_map. apply map_ext_in. intros d Hd.
        destruct (resolver (PyStr.strip d) c) eqn:E; [|reflexivity].
        exfalso. apply Hl. apply resolver_stripped, resolver_true in E. rewrite <- E.
        apply in_map, in_map. exact Hd.
      * rewrite <- (map_id t) at 1. apply map_ext_in. intros x Hx.
        destruct (resolver x c) eqn:E; [|reflexivity].
        exfalso. apply Hr. apply resolver_strip, resolver_true in E. rewrite <- E.
        apply in_map, in_map. exact Hx.
Qed.

Lemma strip_column_names_stripped (df : DataFrame) :
  NoDup (map PyStr.lower (map PyStr.strip (columns df))) ->
  strip_column_names df
  = {| columns := map PyStr.strip (columns df); rows := rows df |}.
Proof.
  intros H. destruct df as [cols rs]. exact (strip_columns_step cols [] rs H).
Qed.

(** X1.  When the names of the header, stripped, differ beyond case, lines
    48-49 leave the frame with each name stripped and the rows as they
    were. *)
Theorem strip_column_names_spec (df : DataFrame) :
  NoDup (map PyStr.lower (map PyStr.strip (columns df))) ->
  strip_column_names df
  = {| columns := map PyStr.strip (columns df); rows := rows df |}.
Proof.
  intros H. unfold strip_column_names. destruct df as [cols rs]. cbn [columns rows] in *.
  apply (strip_columns_step cols [] rs H).
Qed.

Lemma strip_column_names_spec_witness :
  NoDup (map PyStr.lower (map PyStr.strip [" Country Name"; "Year "; "Value"])) /\
  strip_column_names
    {| columns := [" Country Name"; "Year "; "Value"]; rows := [[VStr "A"; VStr "2020"; VStr "1"]] |}
  = {| columns := map PyStr.strip [" Country Name"; "Year "; "Value"];
       rows := [[VStr "A"; VStr "2020"; VStr "1"]] |}.
Proof.
  assert (H : NoDup (map PyStr.lower (map PyStr.strip [" Country Name"; "Year "; "Value"])))
    by (simpl; repeat constructor; simpl; intuition discriminate).
  split; [exact H|].
  exact (strip_column_names_spec
           {| columns := [" Country Name"; "Year "; "Value"];
              rows := [[VStr "A"; VStr "2020"; VStr "1"]] |} H).
Defined.

(** ** read_and_normalize *)

Lemma py_last_in {A : Type} (l : list A) :
  l <> [] -> exists c, py_last l = Ok c /\ In c l.
Proof.
  induction l as [|a l IH]; intros H; [contradiction|].
  destruct l as [|b l'].
  - exists a. split; [reflexivity | left; reflexivity].
  - destruct IH as [c [Hc Hin]]; [discriminate|].
    exists c. split; [exact Hc | right; exact Hin].
Qed.

(** The fallback of lines 62-65 gives a column of the table. *)
Lemma fallback_member (cols : list string) :
  cols <> [] ->
  exists c,
    match filter (fun c => negb (is_id_name c)) cols with
    | [] => py_last cols
    | _ :: _ => py_last (filter (fun c => negb (is_id_name c)) cols)
    end = Ok c /\ In c cols.
Proof.
  intros Hne.
  destruct (filter (fun c => negb (is_id_name c)) cols) as [|a l] eqn:E.
  - apply py_last_in. exact Hne.
  - destruct (py_last_in (a :: l)) as [c [Hc Hin]]; [discriminate|].
    exists c. split; [exact Hc|]. rewrite <- E in Hin. apply filter_In in Hin. apply Hin.
Qed.

Lemma select_value_col_in (cols : list string) (expected_measure : string) :
  cols <> [] ->
  exists c, select_value_col cols expected_measure = Ok c /\ In c cols.
Proof.
  intros Hne. unfold select_value_col.
  destruct (find (is_preferred expected_measure) (rev cols)) as [[|a r]|] eqn:E;
    try exact (fallback_member cols Hne).
  exists (String a r). split; [reflexivity|].
  apply find_some in E. apply in_rev. apply E.
Qed.

(** X2.  On a table with at least one column the choice of the value column
    raises nothing and the column chosen is a column of the table. *)
Theorem select_value_col_member (cols : list string) (expected_measure : string) :
  cols <> [] ->
  exists c, select_value_col cols expected_measure = Ok c /\ In c cols.
Proof.
  intros Hne. unfold select_value_col.
  destruct (find (is_preferred expected_measure) (rev cols)) as [[|a r]|] eqn:E.
  - apply fallback_member, Hne.
  - exists (String a r). split; [reflexivity|].
    apply find_some in E. destruct E as [E _]. apply in_rev in E. exact E.
  - apply fallback_member, Hne.
Qed.

Lemma select_value_col_member_witness :
  exists c, select_value_col two_value_columns "gdp" = Ok c /\ In c two_value_columns.
Proof. apply (select_value_col_member two_value_columns "gdp"). discriminate. Defined.

Lemma positions_from_lower (a b : string) (cols : list string) (k : nat) :
  PyStr.lower a = PyStr.lower b -> positions_from k a cols = positions_from k b cols.
Proof.
  intros H. revert k. induction cols as [|c r IH]; intros k; simpl; [reflexivity|].
  unfold resolver. rewrite H, !IH. reflexivity.
Qed.

(** A name resolves to the column that bears it up to case, when the names
    of the columns differ beyond case. *)
Lemma resolve_at (cols : list string) (i : nat) (name : string) :
  NoDup (map PyStr.lower cols) ->
  nth_error (map PyStr.lower cols) i = Some (PyStr.lower name) ->
  resolve name cols = Ok i.
Proof.
  intros Hnd Hi. rewrite nth_error_map in Hi.
  destruct (nth_error cols i) as [x|] eqn:Ex; [|discriminate].
  injection Hi as Hx. unfold resolve.
  rewrite <- (positions_from_lower x name cols 0 Hx).
  rewrite (positions_from_unique cols Hnd 0 i x Ex). reflexivity.
Qed.

Lemma resolve_missing (cols : list string) (name : string) :
  ~ In (PyStr.lower name) (map PyStr.lower cols) ->
  resolve name cols = Raise (AnalysisException ("cannot resolve " ++ name)).
Proof.
  intros H. unfold resolve. rewrite positions_from_none by exact H. reflexivity.
Qed.

Lemma mem_In (x : string) (l : list string) : PyStr.mem x l = true <-> In x l.
Proof.
  unfold PyStr.mem. rewrite existsb_exists. split.
  - intros [y [Hy E]]. apply String.eqb_eq in E. subst. exact Hy.
  - intros H. exists x. split; [exact H | apply String.eqb_refl].
Qed.


(** *** Names without a backquote *)

Lemma has_backquote_lstrip s :
  has_backquote s = false -> has_backquote (PyStr.lstrip s) = false.
Proof.
  induction s as [|c r IH]; [reflexivity|].
  cbn [PyStr.lstrip]. destruct (PyStr.isspace c); [|trivial].
  cbn [has_backquote]. intros H. apply orb_false_iff in H. apply IH, H.
Qed.

Lemma has_backquote_rstrip s :
  has_backquote s = false -> has_backquote (PyStr.rstrip s) = false.
Proof.
  induction s as [|c r IH]; [reflexivity|].
  cbn [has_backquote]. intros H. apply orb_false_iff in H. destruct H as [Hc Hr].
  rewrite rstrip_cons. specialize (IH Hr).
  destruct (PyStr.rstrip r) as [|d t].
  - destruct (PyStr.isspace c); [reflexivity|]. cbn [has_backquote]. rewrite Hc. reflexivity.
  - change (has_backquote (String c (String d t)))
      with (is_backquote c || has_backquote (String d t)).
    rewrite Hc, IH. reflexivity.
Qed.

Lemma has_backquote_strip s :
  has_backquote s = false -> has_backquote (PyStr.strip s) = false.
Proof. intros H. apply has_backquote_rstrip, has_backquote_lstrip, H. Qed.

(** A name without a backquote is read as it is written. *)
Lemma quoted_identifier_plain s :
  has_backquote s = false -> quoted_identifier s = Some s.
Proof.
  induction s as [|c r IH]; [reflexivity|].
  cbn [has_backquote quoted_identifier]. intros H. apply orb_false_iff in H.
  destruct H as [Hc Hr]. rewrite Hc, (IH Hr). reflexivity.
Qed.

Lemma stripped_names_plain (cols : list string) (c : string) :
  existsb has_backquote cols = false ->
  In c (map PyStr.strip cols) ->
  parse_cast_of_quoted c = Ok c.
Proof.
  intros H Hin. apply in_map_iff in Hin. destruct Hin as [x [<- Hx]].
  unfold parse_cast_of_quoted. rewrite quoted_identifier_plain; [reflexivity|].
  apply has_backquote_strip.
  destruct (has_backquote x) eqn:E; [|reflexivity].
  rewrite <- H. symmetry. apply existsb_exists. exists x. split; assumption.
Qed.

(** *** Names that differ beyond case *)

Lemma positions_from_NoDup (cols : list string) (name : string) :
  NoDup (map PyStr.lower cols) ->
  (List.length (positions_from 0 name cols) <= 1)%nat.
Proof.
  intros Hnd.
  destruct (in_dec string_dec (PyStr.lower name) (map PyStr.lower cols)) as [Hin|Hout].
  - destruct (In_nth_error _ _ Hin) as [i Hi]. rewrite nth_error_map in Hi.
    destruct (nth_error cols i) as [x|] eqn:Ex; [|discriminate].
    injection Hi as Hx.
    rewrite <- (positions_from_lower x name cols 0 Hx).
    rewrite (positions_from_unique cols Hnd 0 i x Ex). apply Nat.le_refl.
  - rewrite positions_from_none by exact Hout. apply Nat.le_0_l.
Qed.

Lemma check_ambiguous_NoDup (names cols : list string) :
  NoDup (map PyStr.lower cols) -> check_ambiguous names cols = Ok tt.
Proof.
  intros Hnd. unfold check_ambiguous.
  destruct (find (fun n => ambiguous n cols) names) as [n|] eqn:E; [|reflexivity].
  apply find_some in E. destruct E as [_ E]. unfold ambiguous in E.
  apply Nat.ltb_lt in E. pose proof (positions_from_NoDup cols n Hnd). lia.
Qed.

(** *** The header after lines 48-49, whatever its names *)





Lemma Forall2_same {A : Type} (l : list A) : Forall2 (fun m n => m = n \/ False) l l.
Proof. induction l; constructor; auto. Qed.









Section Normalize.

Variable cast_int : value -> value.
Variable cast_double : value -> value.

(** X3.  A long table read for one of the three measure names: when the
    names of the header, stripped, differ beyond case, none of them holds a
    backquote and three of them are, up to case, "country name",
    "country code" and "year", [read_and_normalize] returns the frame of
    the measure with one row for each row read, in their order: the cells
    under the first two as they are, the cell under "year" cast to int and
    the cell under the value column cast to double. *)
Theorem read_and_normalize_long (df : DataFrame) (path expected_measure : string)
  (defaults : list string) (n c y : nat) :
  In expected_measure ["population"; "gdp"; "value"] ->
  NoDup (map PyStr.lower (map PyStr.strip (columns df))) ->
  existsb has_backquote (columns df) = false ->
  nth_error (map PyStr.lower (map PyStr.strip (columns df))) n = Some "country name" ->
  nth_error (map PyStr.lower (map PyStr.strip (columns df))) c = Some "country code" ->
  nth_error (map PyStr.lower (map PyStr.strip (columns df))) y = Some "year" ->
  exists value_col v,
    select_value_col (map PyStr.strip (columns df)) expected_measure = Ok value_col /\
    nth_error (map PyStr.strip (columns df)) v = Some value_col /\
    read_and_normalize cast_int cast_double df path expected_measure defaults
    = Ok {| columns := canonical_columns expected_measure;
            rows := map (normalized_row cast_int cast_double n c y v) (rows df) |}.
Proof.
  intros _ Hnd Hbq Hn Hc Hy.
  set (cols := map PyStr.strip (columns df)) in *.
  assert (Hne : cols <> []) by (intros E; rewrite E in Hy; destruct y; discriminate).
  destruct (select_value_col_in cols expected_measure Hne) as [vc [Hvc Hin]].
  destruct (In_nth_error _ _ Hin) as [v Hv].
  exists vc, v. split; [exact Hvc|]. split; [exact Hv|].
  unfold read_and_normalize. rewrite (strip_column_names_stripped df Hnd).
  cbn [columns rows]. fold cols.
  assert (Hyear : PyStr.mem "year" (map PyStr.lower cols) = true)
    by (apply mem_In; eapply nth_error_In; exact Hy).
  rewrite Hyear, Hvc. cbn [bind].
  rewrite (stripped_names_plain (columns df) vc Hbq Hin). cbn [bind].
  rewrite (check_ambiguous_NoDup _ cols Hnd). cbn [bind].
  rewrite (resolve_at cols n "Country Name" Hnd Hn).
  rewrite (resolve_at cols c "Country Code" Hnd Hc).
  rewrite (resolve_at cols y "Year" Hnd Hy).
  rewrite (resolve_at cols v vc Hnd) by (rewrite nth_error_map, Hv; reflexivity).
  reflexivity.
Qed.


(** X5.  A table read for one of the three measure names, whose header
    names, stripped, differ beyond case and hold no backquote: with a "year"
    column and no column named "country name", or with that one and no
    column named "country code" (up to case), it is refused with the
    [AnalysisException] that names the missing column. *)
Theorem read_and_normalize_schema_mismatch (df : DataFrame)
  (path expected_measure : string) (defaults : list string) :
  In expected_measure ["population"; "gdp"; "value"] ->
  NoDup (map PyStr.lower (map PyStr.strip (columns df))) ->
  existsb has_backquote (columns df) = false ->
  In "year" (map PyStr.lower (map PyStr.strip (columns df))) ->
  (~ In "country name" (map PyStr.lower (map PyStr.strip (columns df))) ->
   read_and_normalize cast_int cast_double df path expected_measure defaults
   = Raise (AnalysisException "cannot resolve Country Name")) /\
  (In "country name" (map PyStr.lower (map PyStr.strip (columns df))) ->
   ~ In "country code" (map PyStr.lower (map PyStr.strip (columns df))) ->
   read_and_normalize cast_int cast_double df path expected_measure defaults
   = Raise (AnalysisException "cannot resolve Country Code")).
Proof.
  intros _ Hnd Hbq Hy.
  set (cols := map PyStr.strip (columns df)) in *.
  assert (Hne : cols <> []) by (intros E; rewrite E in Hy; destruct Hy).
  destruct (select_value_col_in cols expected_measure Hne) as [vc [Hvc Hin]].
  assert (E :
    read_and_normalize cast_int cast_double df path expected_measure defaults
    = (n <- resolve "Country Name" cols ;;
       c <- resolve "Country Code" cols ;;
       y <- resolve "Year" cols ;;
       v <- resolve vc cols ;;
       Ok {| columns := canonical_columns expected_measure;
             rows := map (fun r => normalized_row cast_int cast_double n c y v r)
                         (rows df) |})).
  { unfold read_and_normalize. rewrite (strip_column_names_stripped df Hnd).
    cbn [columns rows]. fold cols.
    rewrite (proj2 (mem_In _ _) Hy), Hvc. cbn [bind].
    rewrite (stripped_names_plain (columns df) vc Hbq Hin). cbn [bind].
    rewrite (check_ambiguous_NoDup _ cols Hnd). reflexivity. }
  split.
  - intros Hn. rewrite E, (resolve_missing cols "Country Name" Hn). reflexivity.
  - intros Hn Hc. rewrite E.
    destruct (In_nth_error _ _ Hn) as [n Hn'].
    rewrite (resolve_at cols n "Country Name" Hnd Hn'). cbn [bind].
    rewrite (resolve_missing cols "Country Code" Hc). reflexivity.
Qed.

End Normalize.

Lemma long_table_names :
  NoDup (map PyStr.lower (map PyStr.strip (columns long_table))).
Proof. simpl. repeat constructor; simpl; intuition discriminate. Qed.

Lemma read_and_normalize_long_witness :
  exists value_col v,
    select_value_col (map PyStr.strip (columns long_table)) "population" = Ok value_col /\
    nth_error (map PyStr.strip (columns long_table)) v = Some value_col /\
    read_and_normalize decimal_cast_int decimal_cast_double long_table
      "data/raw/population.csv" "population" id_vars_default
    = Ok {| columns := canonical_columns "population";
            rows := map (normalized_row decimal_cast_int decimal_cast_double 0 1 2 v)
                        (rows long_table) |}.
Proof.
  apply (read_and_normalize_long decimal_cast_int decimal_cast_double long_table
           "data/raw/population.csv" "population" id_vars_default 0 1 2).
  - simpl. auto.
  - exact long_table_names.
  - reflexivity.
  - reflexivity.
  - reflexivity.
  - reflexivity.
Defined.


Lemma read_and_normalize_schema_mismatch_witness :
  (~ In "country name" (map PyStr.lower (map PyStr.strip (columns no_code_table))) ->
   read_and_normalize decimal_cast_int decimal_cast_double no_code_table
     "data/raw/gdp.csv" "gdp" id_vars_default
   = Raise (AnalysisException "cannot resolve Country Name")) /\
  (In "country name" (map PyStr.lower (map PyStr.strip (columns no_code_table))) ->
   ~ In "country code" (map PyStr.lower (map PyStr.strip (columns no_code_table))) ->
   read_and_normalize decimal_cast_int decimal_cast_double no_code_table
     "data/raw/gdp.csv" "gdp" id_vars_default
   = Raise (AnalysisException "cannot resolve Country Code")).
Proof.
  apply (read_and_normalize_schema_mismatch decimal_cast_int decimal_cast_double
           no_code_table "data/raw/gdp.csv" "gdp" id_vars_default).
  - simpl. auto.
  - simpl. repeat constructor; simpl; intuition discriminate.
  - reflexivity.
  - simpl. auto.
Defined.

(** ** simple_clean on the frame of a measure *)

Lemma cell_map_nth_other {A : Type} (f : value -> value) (i j : nat) (r : row) :
  i <> j -> cell (map_nth i f r) j = cell r j.
Proof.
  unfold cell. revert i j. induction r as [|a r IH]; intros [|i] [|j] H; simpl;
    try reflexivity; try contradiction.
  apply IH. lia.
Qed.

Lemma clean_row_cell (r : row) (i : nat) : 2 <= i -> cell (clean_row r) i = cell r i.
Proof.
  intros H. unfold clean_row.
  rewrite !(cell_map_nth_other (A := value)) by lia. reflexivity.
Qed.

Lemma simple_clean_kept_rows (m : measure) (rs : list row) :
  simple_clean (measure_table m rs) (measure_name m)
  = Ok (measure_table m (filter has_year_and_measure (map clean_row rs))).
Proof.
  destruct m; unfold simple_clean, measure_table, measure_name.
  - rewrite (withColumn_map_ok "country_name" (on_text trim)
               ["country_name"; "country_code"; "year"; "population"] rs 0 eq_refl).
    cbn [bind columns set_nth].
    change (PyStr.mem "country_code"
              ["country_name"; "country_code"; "year"; "population"]) with true.
    cbv iota.
    rewrite (withColumn_map_ok "country_code" clean_code
               ["country_name"; "country_code"; "year"; "population"] _ 1 eq_refl).
    cbn [bind columns set_nth].
    rewrite (filter_not_null_ok "year"
               ["country_name"; "country_code"; "year"; "population"] _ 2 eq_refl).
    cbn [bind columns].
    change (PyStr.mem "population"
              ["country_name"; "country_code"; "year"; "population"]) with true.
    cbv iota.
    rewrite (filter_not_null_ok "population"
               ["country_name"; "country_code"; "year"; "population"] _ 3 eq_refl).
    rewrite filter_twice, map_map. reflexivity.
  - rewrite (withColumn_map_ok "country_name" (on_text trim)
               ["country_name"; "country_code"; "year"; "gdp"] rs 0 eq_refl).
    cbn [bind columns set_nth].
    change (PyStr.mem "country_code"
              ["country_name"; "country_code"; "year"; "gdp"]) with true.
    cbv iota.
    rewrite (withColumn_map_ok "country_code" clean_code
               ["country_name"; "country_code"; "year"; "gdp"] _ 1 eq_refl).
    cbn [bind columns set_nth].
    rewrite (filter_not_null_ok "year"
               ["country_name"; "country_code"; "year"; "gdp"] _ 2 eq_refl).
    cbn [bind columns].
    change (PyStr.mem "gdp" ["country_name"; "country_code"; "year"; "gdp"]) with true.
    cbv iota.
    rewrite (filter_not_null_ok "gdp"
               ["country_name"; "country_code"; "year"; "gdp"] _ 3 eq_refl).
    rewrite filter_twice, map_map. reflexivity.
Qed.

(** X6.  On the frame of a measure in the canonical schema [simple_clean]
    returns, in their order, the rows whose year and measure are not NULL,
    each with its name trimmed and its code cleaned and every other cell as
    it was: no row of the result has a NULL year or a NULL measure, and the
    result has at most as many rows. *)
Theorem simple_clean_measure_table (m : measure) (rs : list row) :
  simple_clean (measure_table m rs) (measure_name m)
  = Ok (measure_table m (filter has_year_and_measure (map clean_row rs))) /\
  (forall r i, 2 <= i -> cell (clean_row r) i = cell r i) /\
  (forall o, In o (filter has_year_and_measure (map clean_row rs)) ->
             cell o 2 <> VNull /\ cell o 3 <> VNull) /\
  List.length (filter has_year_and_measure (map clean_row rs)) <= List.length rs.
Proof.
  split; [|split; [|split]].
  - apply simple_clean_kept_rows.
  - intros r i. apply clean_row_cell.
  - intros o Ho. apply filter_In in Ho. destruct Ho as [_ Ho].
    unfold has_year_and_measure in Ho. apply andb_true_iff in Ho. destruct Ho as [H2 H3].
    split; intros E; rewrite E in *; discriminate.
  - etransitivity; [apply filter_length_le|]. rewrite length_map. reflexivity.
Qed.

(** X7.  On a country code in which no backslash stands before a letter s,
    the cleaning of line 100 is a trim of spaces and no more; in every case
    the cleaned code holds no backslash before an s. *)
Theorem clean_code_is_trim (s : string) :
  has_match s = false ->
  clean_code (VStr s) = VStr (trim s) /\
  clean_code VNull = VNull /\
  has_match (trim s) = false.
Proof.
  intros H. split; [|split].
  - unfold clean_code, regexp_replace_backslash_s. cbn [on_text].
    rewrite (remove_matches_fixed s H). reflexivity.
  - reflexivity.
  - unfold trim. apply has_match_rtrim, has_match_ltrim, H.
Qed.

Lemma clean_code_is_trim_witness :
  clean_code (VStr " U S A ") = VStr (trim " U S A ") /\
  clean_code VNull = VNull /\
  has_match (trim " U S A ") = false.
Proof. apply (clean_code_is_trim " U S A "). reflexivity. Defined.

(** ** The classifier and the sign of the values *)

Lemma abs_opp (x : Float64.float) : Float64.abs (SFopp x) = Float64.abs x.
Proof. destruct x; reflexivity. Qed.

Lemma sample_values_negate (l : list CanonicalRow) :
  sample_values (map negate_value l) = map SFopp (sample_values l).
Proof.
  induction l as [|r l IH]; simpl; [reflexivity|].
  destruct (measure_value r); simpl; rewrite IH; reflexivity.
Qed.

Lemma mean_abs_opp (how : Float64.summation) (vals : list Float64.float) :
  mean_abs how (map SFopp vals) = mean_abs how vals.
Proof.
  unfold mean_abs. rewrite map_map, length_map.
  rewrite (map_ext _ Float64.abs) by apply abs_opp. reflexivity.
Qed.

Section Classifier.

Variable float_of_text : string -> option Float64.float.
Variable builtin_sum : Float64.summation.

(** X8.  The classifier looks at absolute values only: the frame whose values
    are the opposites of the values of a frame gets the same answer. *)
Theorem classify_ignores_sign (cols : list string) (rs : list CanonicalRow) :
  classify float_of_text builtin_sum {| columns := cols; rows := map to_row (map negate_value rs) |}
  = classify float_of_text builtin_sum {| columns := cols; rows := map to_row rs |}.
Proof.
  rewrite !classify_canonical.
  rewrite firstn_map.
  rewrite sample_values_negate.
  destruct (sample_values (firstn 100 rs)) as [|v vs]; [reflexivity|].
  change (map SFopp (v :: vs)) with (SFopp v :: map SFopp vs).
  cbv iota. change (SFopp v :: map SFopp vs) with (map SFopp (v :: vs)).
  rewrite mean_abs_opp. reflexivity.
Qed.

End Classifier.

(** ** The loop of main, file by file *)

Lemma measure_table_of_columns (m : measure) (d : DataFrame) :
  columns d = canonical_columns (measure_name m) -> d = measure_table m (rows d).
Proof. destruct d as [cols rs]. cbn [columns rows]. intros ->. reflexivity. Qed.

Lemma kept_rows_clean (rs : list row) :
  Forall (fun r => has_year_and_measure r = true)
         (filter has_year_and_measure (map clean_row rs)).
Proof. apply Forall_forall. intros r Hr. apply filter_In in Hr. apply Hr. Qed.

Section LoopFacts.

Variable cast_int : value -> value.
Variable cast_double : value -> value.
Variable float_of_text : string -> option Float64.float.
Variable builtin_sum : Float64.summation.

(** What the [try] of one file does: it raises and leaves the state as it
    was, or it assigns the cleaned frame of one measure, whose rows all have
    a year and a value, and prints one line about the file. *)
Lemma try_file_loaded (f : file) :
  (exists e, forall s, try_file cast_int cast_double float_of_text builtin_sum f s = (s, Some e)) \/
  (exists m rs ev,
      Forall (fun r => has_year_and_measure r = true) rs /\
      event_path ev = Some (path f) /\
      forall s, try_file cast_int cast_double float_of_text builtin_sum f s
                = (print ev (assign m (measure_table m rs) s), None)).
Proof.
  assert (L : forall m,
    (exists e, forall s, load_as cast_int cast_double m f s = (s, Some e)) \/
    (exists rs ev,
        Forall (fun r => has_year_and_measure r = true) rs /\
        event_path ev = Some (path f) /\
        forall s, load_as cast_int cast_double m f s
                  = (print ev (assign m (measure_table m rs) s), None))).
  { intros m. unfold load_as.
    destruct (read_and_normalize cast_int cast_double (loaded f) (path f)
                (measure_name m) id_vars_default) as [d|e] eqn:E.
    - apply read_and_normalize_columns in E.
      rewrite (measure_table_of_columns m d E).
      rewrite (simple_clean_kept_rows m (rows d)).
      right. eexists _, (Loaded m (path f) _). split; [apply kept_rows_clean|].
      split; [reflexivity|]. intros s. destruct m; reflexivity.
    - left. exists e. reflexivity. }
  unfold try_file. destruct (dispatch (path f)).
  - destruct (L Population) as [[e H] | [rs [ev [Hc [He H]]]]].
    + left. exists e. exact H.
    + right. exists Population, rs, ev. auto.
  - destruct (L Gdp) as [[e H] | [rs [ev [Hc [He H]]]]].
    + left. exists e. exact H.
    + right. exists Gdp, rs, ev. auto.
  - unfold auto_detect.
    destruct (read_and_normalize cast_int cast_double (loaded f) (path f)
                "value" id_vars_default) as [tmp|e] eqn:E.
    2:{ left. exists e. reflexivity. }
    apply read_and_normalize_columns in E.
    destruct (classify float_of_text builtin_sum tmp) as [m|e].
    2:{ left. exists e. reflexivity. }
    assert (Hc : withColumnRenamed "value" (measure_name m) tmp = measure_table m (rows tmp)).
    { destruct tmp as [cols rs]. cbn [columns] in E. subst cols. destruct m; reflexivity. }
    rewrite Hc, (simple_clean_kept_rows m (rows tmp)).
    right. eexists m, _, (AutoDetected m (path f) _). split; [apply kept_rows_clean|].
    split; [reflexivity|]. intros s. destruct m; reflexivity.
Qed.

(** X9.  The loop prints one line for each file, in the order of the files,
    and each line is about its file: loaded, auto-detected or skipped. *)
Theorem one_line_per_file (csvs : list file) (s : state) :
  exists lines,
    printed (fold_left (process_file cast_int cast_double float_of_text builtin_sum) csvs s)
    = printed s ++ lines /\
    map event_path lines = map (fun f => Some (path f)) csvs.
Proof.
  revert s. induction csvs as [|f l IH]; intros s.
  - exists []. simpl. rewrite app_nil_r. auto.
  - cbn [fold_left].
    assert (H : exists ev, event_path ev = Some (path f) /\
              printed (process_file cast_int cast_double float_of_text builtin_sum s f)
              = printed s ++ [ev]).
    { unfold process_file.
      destruct (try_file_loaded f) as [[e H] | [m [rs [ev [_ [He H]]]]]]; rewrite H.
      - exists (Skipping (path f) e). auto.
      - exists ev. split; [exact He|]. destruct m; reflexivity. }
    destruct H as [ev [He Hp]].
    destruct (IH (process_file cast_int cast_double float_of_text builtin_sum s f)) as [lines [Hl Hm]].
    exists (ev :: lines). rewrite Hl, Hp, <- app_assoc. split; [reflexivity|].
    cbn [map]. rewrite He, Hm. reflexivity.
Qed.

Lemma process_file_frame (m : measure) (s : state) (f : file) :
  frame_of m (process_file cast_int cast_double float_of_text builtin_sum s f)
  = or_earlier (frame_of m s)
      (frame_of m (fst (try_file cast_int cast_double float_of_text builtin_sum f initial_state))).
Proof.
  unfold process_file.
  destruct (try_file_loaded f) as [[e H] | [m' [rs [ev [_ [_ H]]]]]]; rewrite !H.
  - destruct m; reflexivity.
  - destruct m, m'; reflexivity.
Qed.

Lemma loop_frame (m : measure) (csvs : list file) :
  forall s,
    frame_of m (fold_left (process_file cast_int cast_double float_of_text builtin_sum) csvs s)
    = fold_left
        (fun acc f =>
           or_earlier acc
             (frame_of m (fst (try_file cast_int cast_double float_of_text builtin_sum f initial_state))))
        csvs (frame_of m s).
Proof.
  induction csvs as [|f l IH]; intros s; [reflexivity|].
  cbn [fold_left]. rewrite IH, process_file_frame. reflexivity.
Qed.

(** X10.  The frame of a measure after the loop is the frame of the last file
    that gave one for that measure: a file that gives a frame replaces what
    the files before it gave, and the files after it that give none (they
    failed, or are of the other measure) leave it. *)
Theorem last_file_of_a_measure_wins (m : measure) (before after : list file)
  (f : file) (d : DataFrame) :
  frame_of m (fst (try_file cast_int cast_double float_of_text builtin_sum f initial_state)) = Some d ->
  (forall g, In g after ->
     frame_of m (fst (try_file cast_int cast_double float_of_text builtin_sum g initial_state)) = None) ->
  frame_of m (fold_left (process_file cast_int cast_double float_of_text builtin_sum)
                (before ++ f :: after) initial_state)
  = Some d.
Proof.
  intros Hf Hafter. rewrite loop_frame, fold_left_app. cbn [fold_left].
  rewrite Hf. cbn [or_earlier].
  induction after as [|g l IH]; [reflexivity|].
  cbn [fold_left]. rewrite (Hafter g (or_introl eq_refl)). cbn [or_earlier].
  apply IH. intros h Hh. apply Hafter. right. exact Hh.
Qed.


End LoopFacts.

(** ** What main hands to the writer *)



Lemma coalesce_right_not_null b : b <> VNull -> coalesce VNull b <> VNull.
Proof. intros H. exact H. Qed.


Section MainFacts.

Variable cast_int : value -> value.
Variable cast_double : value -> value.
Variable float_of_text : string -> option Float64.float.
Variable builtin_sum : Float64.summation.


End MainFacts.

Lemma last_file_of_a_measure_wins_witness :
  frame_of Population
    (fold_left (process_file decimal_cast_int decimal_cast_double decimal_float Float64.Compensated)
       ([mkFile "data/raw/pop_old.csv" long_table]
        ++ mkFile "data/raw/population.csv" later_table
        :: [mkFile "data/raw/gdp.csv" long_table])
       initial_state)
  = Some (measure_table Population
            [[VStr "Aland"; VStr "ALA"; VInt 2020; VDbl (Float64.of_Z 120)]]).
Proof.
  apply (last_file_of_a_measure_wins decimal_cast_int decimal_cast_double decimal_float Float64.Compensated
           Population [mkFile "data/raw/pop_old.csv" long_table]
           [mkFile "data/raw/gdp.csv" long_table]
           (mkFile "data/raw/population.csv" later_table)).
  - vm_compute. reflexivity.
  - intros g [<- | []]. vm_compute. reflexivity.
Defined.


(** ** The merge, row by row *)

Lemma NoDup_map_injective {A B : Type} (f : A -> B) (l : list A) (a b : A) :
  NoDup (map f l) -> In a l -> In b l -> f a = f b -> a = b.
Proof.
  induction l as [|x l IH]; intros Hnd Ha Hb E; [destruct Ha|].
  simpl in Hnd. apply NoDup_cons_iff in Hnd. destruct Hnd as [Hx Hl].
  destruct Ha as [-> | Ha]; destruct Hb as [-> | Hb].
  - reflexivity.
  - exfalso. apply Hx. rewrite E. apply in_map. exact Hb.
  - exfalso. apply Hx. rewrite <- E. apply in_map. exact Ha.
  - apply IH; assumption.
Qed.

Lemma one_element {A : Type} (l : list A) (x : A) :
  List.length l = 1 -> (forall y, In y l -> y = x) -> l = [x].
Proof.
  destruct l as [|a [|b l]]; intros H Hall; try discriminate.
  rewrite (Hall a (or_introl eq_refl)). reflexivity.
Qed.

(** X12.  When no two rows of the population frame have the same key, nor two
    of the gdp frame, a population row and a gdp row with the same non-NULL
    country code and year make one row of the merged frame, the only one
    with their key: the name and code of the population row (of the gdp row
    when NULL), the year, the population of the one and the gdp of the
    other. *)
Theorem merge_joins_matching_rows (P G : list row) (l r : row) :
  NoDup (map key_of P) ->
  NoDup (map key_of G) ->
  In l P -> In r G ->
  same_code_and_year l r = true ->
  exists out,
    merge (Some (measure_table Population P)) (Some (measure_table Gdp G)) = Ok (Some out) /\
    rows_with_key (key_of l) (rows out)
    = [[coalesce (cell l 0) (cell r 0); cell l 1; cell l 2; cell l 3; cell r 3]].
Proof.
  intros HP HG Hl Hr Hon.
  eexists. split; [apply merge_both|]. cbn [rows].
  destruct (key_of_matched l r Hon) as [Ek Elr].
  assert (Hrow : merged_row (Some l, Some r)
                 = [coalesce (cell l 0) (cell r 0); cell l 1; cell l 2; cell l 3; cell r 3]).
  { unfold merged_row. cbn [fst snd side_cell].
    change (key_of (merged_row (Some l, Some r)))
      with [coalesce (cell l 1) (cell r 1); coalesce (cell l 2) (cell r 2)] in Ek.
    unfold key_of in Ek. injection Ek as E1 E2. rewrite E1, E2. reflexivity. }
  rewrite <- Hrow. unfold rows_with_key. apply one_element.
  - apply one_row_with_key; [apply drop_dups_NoDup|].
    apply drop_dups_keys, joined_keys. left. apply in_map. exact Hl.
  - intros o Ho. apply filter_In in Ho. destruct Ho as [Ho Hk].
    apply keys_eqb_eq in Hk. apply drop_dups_incl in Ho.
    apply in_map_iff in Ho. destruct Ho as [p [<- Hp]]. apply outer_join_In in Hp.
    destruct Hp as [[l' [Hl' [Hnone ->]]] | [[l' [r' [Hl' [Hr' [Hon' ->]]]]] | [r' [Hr' [Hnone ->]]]]].
    + exfalso. rewrite key_of_left_only in Hk.
      assert (l' = l) by (apply (NoDup_map_injective key_of P); auto). subst l'.
      assert (Hin : In r (filter (same_code_and_year l) G)) by (apply filter_In; auto).
      rewrite Hnone in Hin. destruct Hin.
    + destruct (key_of_matched l' r' Hon') as [Ek' Elr'].
      rewrite Ek' in Hk.
      assert (l' = l) by (apply (NoDup_map_injective key_of P); auto). subst l'.
      assert (r' = r) by (apply (NoDup_map_injective key_of G); auto; congruence).
      subst r'. reflexivity.
    + exfalso. rewrite key_of_right_only in Hk.
      assert (r' = r) by (apply (NoDup_map_injective key_of G); auto; congruence).
      subst r'.
      assert (Hex : existsb (fun l0 => same_code_and_year l0 r) P = true)
        by (apply existsb_exists; exists l; auto).
      rewrite Hex in Hnone. discriminate.
Qed.

Lemma merge_joins_matching_rows_witness :
  exists out,
    merge (Some (measure_table Population
                   [[VStr "United States"; VStr "USA"; VInt 2020; VDbl (Float64.of_Z 331)]]))
          (Some (measure_table Gdp
                   [[VNull; VStr "USA"; VInt 2020; VDbl (Float64.of_Z 21)]]))
    = Ok (Some out) /\
    rows_with_key (key_of [VStr "United States"; VStr "USA"; VInt 2020; VDbl (Float64.of_Z 331)])
      (rows out)
    = [[coalesce (cell [VStr "United States"; VStr "USA"; VInt 2020; VDbl (Float64.of_Z 331)] 0)
          (cell [VNull; VStr "USA"; VInt 2020; VDbl (Float64.of_Z 21)] 0);
        cell [VStr "United States"; VStr "USA"; VInt 2020; VDbl (Float64.of_Z 331)] 1;
        cell [VStr "United States"; VStr "USA"; VInt 2020; VDbl (Float64.of_Z 331)] 2;
        cell [VStr "United States"; VStr "USA"; VInt 2020; VDbl (Float64.of_Z 331)] 3;
        cell [VNull; VStr "USA"; VInt 2020; VDbl (Float64.of_Z 21)] 3]].
Proof.
  apply (merge_joins_matching_rows
           [[VStr "United States"; VStr "USA"; VInt 2020; VDbl (Float64.of_Z 331)]]
           [[VNull; VStr "USA"; VInt 2020; VDbl (Float64.of_Z 21)]]).
  - simpl. repeat constructor. simpl. tauto.
  - simpl. repeat constructor. simpl. tauto.
  - left. reflexivity.
  - left. reflexivity.
  - reflexivity.
Defined.

(** X13.  A row of the merged frame whose country code or year is NULL holds
    one measure at most: rows with a NULL in the key are never joined. *)
Theorem merge_null_key_unjoined (P G : list row) :
  exists out,
    merge (Some (measure_table Population P)) (Some (measure_table Gdp G)) = Ok (Some out) /\
    forall o, In o (rows out) ->
      cell o 1 = VNull \/ cell o 2 = VNull ->
      field out o "population" = VNull \/ field out o "gdp" = VNull.
Proof.
  eexists. split; [apply merge_both|]. cbn [rows].
  intros o Ho Hnull. apply drop_dups_incl in Ho.
  apply in_map_iff in Ho. destruct Ho as [p [<- Hp]]. apply outer_join_In in Hp.
  destruct Hp as [[l [_ [_ ->]]] | [[l [r [_ [_ [Hon ->]]]]] | [r [_ [_ ->]]]]].
  - right. reflexivity.
  - exfalso. unfold same_code_and_year in Hon.
    apply andb_true_iff in Hon. destruct Hon as [H1 H2].
    apply andb_true_iff in H2. destruct H2 as [H2 _].
    apply sql_eqb_eq in H1, H2. destruct H1 as [_ N1]. destruct H2 as [_ N2].
    destruct Hnull as [E | E].
    + change (coalesce (cell l 1) (cell r 1) = VNull) in E.
      rewrite (coalesce_not_null _ _ N1) in E. contradiction.
    + change (coalesce (cell l 2) (cell r 2) = VNull) in E.
      rewrite (coalesce_not_null _ _ N2) in E. contradiction.
  - left. reflexivity.
Qed.

(** ** The paths of list_csvs *)

Lemma contains_slash_cons (c : ascii) (r : string) :
  PyStr.contains "/" (String c r) = Ascii.eqb "/" c || PyStr.contains "/" r.
Proof.
  cbn [PyStr.contains PyStr.startswith]. destruct r; rewrite andb_true_r; reflexivity.
Qed.

Lemma basename_no_slash (f : string) :
  PyStr.contains "/" f = false -> PyStr.basename f = f.
Proof.
  destruct f as [|c r]; [reflexivity|].
  rewrite contains_slash_cons. intros H. apply orb_false_iff in H. destruct H as [Hc Hr].
  cbn [PyStr.basename]. rewrite Hr, Ascii.eqb_sym, Hc. reflexivity.
Qed.

Lemma contains_slash_app (a f : string) :
  PyStr.contains "/" (a ++ String "/" f)%string = true.
Proof.
  induction a as [|c a IH].
  - cbn [append]. rewrite contains_slash_cons. reflexivity.
  - cbn [append]. rewrite contains_slash_cons, IH. apply orb_true_r.
Qed.

Lemma basename_app_slash (a f : string) :
  PyStr.contains "/" f = false -> PyStr.basename (a ++ String "/" f)%string = f.
Proof.
  intros H. induction a as [|c a IH].
  - cbn [append PyStr.basename]. rewrite H. reflexivity.
  - cbn [append PyStr.basename]. rewrite contains_slash_app. exact IH.
Qed.

Lemma endswith_slash (a : string) :
  endswith a "/" = true -> exists a0, a = (a0 ++ "/")%string.
Proof.
  induction a as [|c a IH]; cbn [endswith].
  - discriminate.
  - intros H. apply orb_true_iff in H. destruct H as [H | H].
    + apply String.eqb_eq in H. exists "". exact H.
    + destruct (IH H) as [a0 ->]. exists (String c a0). reflexivity.
Qed.

Lemma append_assoc_slash (a0 f : string) :
  ((a0 ++ "/") ++ f = a0 ++ String "/" f)%string.
Proof. induction a0 as [|c a0 IH]; cbn [append]; [reflexivity|]. rewrite IH. reflexivity. Qed.

Lemma basename_join (raw_dir f : string) :
  PyStr.contains "/" f = false -> PyStr.basename (os_path_join raw_dir f) = f.
Proof.
  intros H. unfold os_path_join.
  assert (Hs : PyStr.startswith f "/" = false).
  { destruct f as [|c r]; [reflexivity|]. rewrite contains_slash_cons in H.
    apply orb_false_iff in H. cbn [PyStr.startswith]. rewrite (proj1 H). reflexivity. }
  rewrite Hs. destruct (String.eqb raw_dir "") eqn:E.
  - apply String.eqb_eq in E. subst. cbn [orb append]. apply basename_no_slash, H.
  - cbn [orb]. destruct (endswith raw_dir "/") eqn:Es.
    + destruct (endswith_slash _ Es) as [a0 ->]. rewrite append_assoc_slash.
      apply basename_app_slash, H.
    + apply (basename_app_slash raw_dir f H).
Qed.

(** X14.  For a listing whose names hold no slash, the base names of the paths
    that [list_csvs] returns are the names of the listing that end in ".csv"
    whatever their case, in the order of the listing; so the measure that
    the name of a path gives is the one that the file name gives, whatever
    the directory is called. *)
Theorem list_csvs_names (raw_dir : string) (listing : list string) :
  (forall f, In f listing -> PyStr.contains "/" f = false) ->
  map PyStr.basename (list_csvs raw_dir listing) = filter is_csv listing /\
  map dispatch (list_csvs raw_dir listing) = map dispatch (filter is_csv listing).
Proof.
  intros H. unfold list_csvs.
  assert (E : forall f, In f (filter is_csv listing) ->
                        PyStr.basename (os_path_join raw_dir f) = f).
  { intros f Hf. apply basename_join, H. apply filter_In in Hf. apply Hf. }
  rewrite !map_map. split.
  - rewrite <- (map_id (filter is_csv listing)) at 2. apply map_ext_in. exact E.
  - apply map_ext_in. intros f Hf. unfold dispatch. rewrite (E f Hf).
    rewrite (basename_no_slash f); [reflexivity|].
    apply H. apply filter_In in Hf. apply Hf.
Qed.

Lemma list_csvs_names_witness :
  map PyStr.basename (list_csvs "data/population" ["gdp.CSV"; "notes.txt"; "world_pop.csv"])
  = filter is_csv ["gdp.CSV"; "notes.txt"; "world_pop.csv"] /\
  map dispatch (list_csvs "data/population" ["gdp.CSV"; "notes.txt"; "world_pop.csv"])
  = map dispatch (filter is_csv ["gdp.CSV"; "notes.txt"; "world_pop.csv"]).
Proof.
  apply (list_csvs_names "data/population" ["gdp.CSV"; "notes.txt"; "world_pop.csv"]).
  intros f [<- | [<- | [<- | []]]]; reflexivity.
Defined.

(** ** When main writes nothing *)


Section Nothing.

Variable cast_int : value -> value.
Variable cast_double : value -> value.
Variable float_of_text : string -> option Float64.float.
Variable builtin_sum : Float64.summation.



End Nothing.
